(** * Gestra trainer ([flex_sibi.py]): a shallow embedding and its properties

    The trainer is a linear Python script: load three tables, impute the
    numeric columns, train an SVM pipeline, export the pickled pipeline and
    a text report to object storage.  The embedding follows the source
    function by function.

    - Python strings are [string]; lists are [list]; tuples are products.
    - A raised exception is the [Raise] branch of [result].
    - Code that calls object storage or the warehouse runs in the monad
      [M]: it threads the trace of external calls made so far, and it may
      raise.
    - An object mutated in place (the table being cleaned, the pipeline
      being fitted) is passed in and its final state is passed out.
    - Third-party library functions whose code is not part of the
      repository (pandas' parser, pickle, scikit-learn, the text renderings
      of floats and strings) and the answers of the services are fields of
      the classes [Pandas], [Services], [Sklearn] and [PyText]: every
      theorem holds for any behaviour of theirs. *)

From Stdlib Require Import String Ascii List Bool Arith ZArith Lia QArith DecimalString.
Import ListNotations.

Local Close Scope Q_scope.
Local Open Scope list_scope.
Local Open Scope string_scope.

(** ** Python exceptions and results *)

Inductive pyerr : Type :=
| IndexError
| KeyError (key : string)
| ValueError (msg : string)
| Exception (msg : string).

Inductive result (A : Type) : Type :=
| Ok (a : A)
| Raise (e : pyerr).

Arguments Ok {A} a.
Arguments Raise {A} e.

Definition rbind {A B : Type} (r : result A) (k : A -> result B) : result B :=
  match r with
  | Ok a => k a
  | Raise e => Raise e
  end.

Declare Scope result_scope.
Delimit Scope result_scope with result.
Notation "x <- r ;; k" := (rbind r (fun x => k))
  (at level 61, r at next level, right associativity) : result_scope.

(** ** Python string and list primitives used by the script *)

Module Py.

(** [c in s] for a one-character [c]. *)
Fixpoint contains (c : ascii) (s : string) : bool :=
  match s with
  | EmptyString => false
  | String d r => if Ascii.eqb d c then true else contains c r
  end.

(** [s.split(sep)] for a one-character separator: never the empty list. *)
Fixpoint split (sep : ascii) (s : string) : list string :=
  match s with
  | EmptyString => [EmptyString]
  | String c r =>
      if Ascii.eqb c sep then EmptyString :: split sep r
      else match split sep r with
           | [] => [String c EmptyString]
           | h :: t => String c h :: t
           end
  end.

(** [sep.join(l)]. *)
Fixpoint join (sep : string) (l : list string) : string :=
  match l with
  | [] => EmptyString
  | [x] => x
  | x :: rest => x ++ sep ++ join sep rest
  end.

(** [s.endswith(c)] for a one-character [c]. *)
Fixpoint endswith (c : ascii) (s : string) : bool :=
  match s with
  | EmptyString => false
  | String d EmptyString => Ascii.eqb d c
  | String _ r => endswith c r
  end.

(** [s.startswith(p)]. *)
Fixpoint startswith (p s : string) : bool :=
  match p, s with
  | EmptyString, _ => true
  | String _ _, EmptyString => false
  | String a p', String b s' => if Ascii.eqb a b then startswith p' s' else false
  end.

(** [s[:-1]]. *)
Fixpoint drop_last (s : string) : string :=
  match s with
  | EmptyString => EmptyString
  | String _ EmptyString => EmptyString
  | String c r => String c (drop_last r)
  end.

(** [s[:-k]] for a literal [k > 0]: the empty string when [s] is shorter. *)
Definition drop_end (k : nat) (s : string) : string := Nat.iter k drop_last s.

(** [s[k:]]. *)
Fixpoint drop_start (k : nat) (s : string) : string :=
  match k, s with
  | O, _ => s
  | S _, EmptyString => EmptyString
  | S k', String _ r => drop_start k' r
  end.

(** [l[i]] for [i >= 0]. *)
Definition item {A : Type} (l : list A) (i : nat) : result A :=
  match nth_error l i with
  | Some x => Ok x
  | None => Raise IndexError
  end.

(** [l[-1]]. *)
Definition item_last {A : Type} (l : list A) : result A :=
  match rev l with
  | x :: _ => Ok x
  | [] => Raise IndexError
  end.

(** [l[k:]]. *)
Definition slice_from {A : Type} (k : nat) (l : list A) : list A := skipn k l.

(** The list left by [l.pop()]. *)
Definition pop_rest {A : Type} (l : list A) : list A := removelast l.

(** [os.path.join(a, b)] on POSIX: an absolute [b] replaces [a]. *)
Definition path_join (a b : string) : string :=
  if startswith "/" b then b
  else match a with
       | EmptyString => b
       | _ => if endswith "/" a then a ++ b else a ++ "/" ++ b
       end.

End Py.

(** ** URI parser *)

Local Open Scope result_scope.

(** The token list after the optional [url_arr.pop()]. *)
Definition url_arr_after_pop (uri : string) : list string :=
  let url_arr := Py.split "/" uri in
  match Py.item_last url_arr with
  | Ok last_tok => if negb (Py.contains "." last_tok) then url_arr else Py.pop_rest url_arr
  | Raise _ => url_arr
  end.

Definition process_gcs_uri (uri : string) : result (string * string * string * string) :=
  let url_arr := Py.split "/" uri in
  last_tok <- Py.item_last url_arr ;;
  let '(file, url_arr) :=
    if negb (Py.contains "." last_tok) then (EmptyString, url_arr)
    else (last_tok, Py.pop_rest url_arr) in
  scheme <- Py.item url_arr 0 ;;
  bucket <- Py.item url_arr 2 ;;
  let path := Py.join "/" (Py.slice_from 3 url_arr) in
  let path := if Py.endswith "/" path then Py.drop_end 1 path else path in
  Ok (scheme, bucket, path, file).

(** ** Tables

    A float64 that is not NaN is a finite value, and every finite float is
    a rational, or one of the two infinities.  A rational written where such
    a value is expected stands for the finite value. *)

Inductive float_value : Type :=
| Finite (q : Q)
| PosInf
| NegInf.

Coercion Finite : Q >-> float_value.
Bind Scope Q_scope with float_value.

(** A pandas cell in a column the script treats as numeric: a number, the
    missing marker [NaN], or a Python string that still has to be parsed. *)
Inductive cell : Type :=
| Num (x : float_value)
| NaN
| Str (s : string).

Definition column : Type := list cell.

(** A [DataFrame] keeps its columns in order; every column has one entry per
    row, row [i] of the table being the [i]-th entry of each column. *)
Definition DataFrame : Type := list (string * column).

(** [df[n]]: [KeyError] when no column is called [n]. *)
Fixpoint getitem (df : DataFrame) (n : string) : result column :=
  match df with
  | [] => Raise (KeyError n)
  | (k, col) :: rest => if String.eqb k n then Ok col else getitem rest n
  end.

(** [df[n] = col]: an existing column is replaced where it stands, a new one
    is appended. *)
Fixpoint setitem (df : DataFrame) (n : string) (col : column) : DataFrame :=
  match df with
  | [] => [(n, col)]
  | (k, old) :: rest =>
      if String.eqb k n then (k, col) :: rest else (k, old) :: setitem rest n col
  end.

(** [df.columns]. *)
Definition columns_of (df : DataFrame) : list string := map fst df.

(** pandas' number parser and the float64 mean it computes for a series
    with at least one value are library code: parameters of the model.  The
    mean is [None] when it is NaN, as for a series that holds both
    infinities; how it sums and rounds is left to the library. *)
Class Pandas : Type := {
  parse_numeric : string -> option float_value;
  mean_of : list float_value -> option float_value
}.

(** One element under [pd.to_numeric(..., errors='coerce')]. *)
Definition coerce `{Pandas} (c : cell) : cell :=
  match c with
  | Num x => Num x
  | NaN => NaN
  | Str s => match parse_numeric s with
             | Some x => Num x
             | None => NaN
             end
  end.

Definition to_numeric `{Pandas} (col : column) : column := map coerce col.

(** The values a column holds, missing entries skipped. *)
Fixpoint present (col : column) : list float_value :=
  match col with
  | [] => []
  | Num x :: rest => x :: present rest
  | _ :: rest => present rest
  end.

Definition Qsum (xs : list Q) : Q := fold_right Qplus (0 # 1)%Q xs.

(** [Series.mean()]: the mean of the non-missing values; [NaN] when there
    is none, or when the mean of those there are is NaN. *)
Definition series_mean `{Pandas} (col : column) : cell :=
  match present col with
  | [] => NaN
  | xs => match mean_of xs with
          | Some m => Num m
          | None => NaN
          end
  end.

(** [Series.fillna(v)]. *)
Definition fillna (col : column) (v : cell) : column :=
  map (fun c => match c with NaN => v | _ => c end) col.

(** The table is updated in place, column after column, and the value
    returned is the table the caller passed.  The first component is the
    state of that table when the call ends, the second the exception that
    ended it, if any: a name that is no column raises [KeyError] at the
    first [df[n]], with the columns before it already rewritten. *)
Fixpoint clean_missing_numerics `{Pandas} (df : DataFrame) (numeric_columns : list string)
  : DataFrame * option pyerr :=
  match numeric_columns with
  | [] => (df, None)
  | n :: rest =>
      match getitem df n with
      | Raise e => (df, Some e)
      | Ok raw =>
          let df := setitem df n (to_numeric raw) in
          match getitem df n with
          | Raise e => (df, Some e)
          | Ok col =>
              match getitem df n with
              | Raise e => (df, Some e)
              | Ok col' =>
                  let df := setitem df n (fillna col (series_mean col')) in
                  clean_missing_numerics df rest
              end
          end
      end
  end.

(** What the two statements of the loop body make of one column. *)
Definition clean_column `{Pandas} (raw : column) : column :=
  fillna (to_numeric raw) (series_mean (to_numeric raw)).

(** One entry after cleaning, [m] being the mean used for the column. *)
Definition impute `{Pandas} (m : cell) (c : cell) : cell :=
  match coerce c with
  | NaN => m
  | v => v
  end.

Definition is_num (c : cell) : bool :=
  match c with Num _ => true | _ => false end.

Definition is_missing (c : cell) : bool :=
  match c with NaN => true | _ => false end.

(** [count_missing]: the number of missing entries of a column. *)
Definition count_missing (col : column) : nat := List.length (filter is_missing col).

(** A library to run the model on examples.  The parser reads unsigned
    decimal integers, on which it agrees with pandas, and rejects everything
    else.  The mean is the exact one, which is the float64 mean wherever the
    examples use it (small whole numbers); it is an infinity when only that
    infinity occurs, and NaN when both do. *)
Definition digit_value (c : ascii) : option Z :=
  let n := nat_of_ascii c in
  if (48 <=? n)%nat && (n <=? 57)%nat then Some (Z.of_nat (n - 48)) else None.

Fixpoint parse_digits (acc : Z) (s : string) : option Z :=
  match s with
  | EmptyString => Some acc
  | String c r =>
      match digit_value c with
      | Some d => parse_digits (10 * acc + d)%Z r
      | None => None
      end
  end.

Definition parse_unsigned (s : string) : option float_value :=
  match s with
  | EmptyString => None
  | _ => option_map (fun z => Finite (inject_Z z)) (parse_digits 0%Z s)
  end.

Fixpoint finite_values (xs : list float_value) : list Q :=
  match xs with
  | [] => []
  | Finite q :: rest => q :: finite_values rest
  | _ :: rest => finite_values rest
  end.

Definition is_pos_inf (x : float_value) : bool :=
  match x with PosInf => true | _ => false end.

Definition is_neg_inf (x : float_value) : bool :=
  match x with NegInf => true | _ => false end.

Definition exact_mean (xs : list float_value) : option float_value :=
  match existsb is_pos_inf xs, existsb is_neg_inf xs with
  | true, true => None
  | true, false => Some PosInf
  | false, true => Some NegInf
  | false, false =>
      Some (Finite (Qsum (finite_values xs) / inject_Z (Z.of_nat (List.length xs)))%Q)
  end.

Definition digits_pandas : Pandas :=
  {| parse_numeric := parse_unsigned; mean_of := exact_mean |}.

(** A column is fully numeric when every entry is a number. *)
Definition fully_numeric (col : column) : bool := forallb is_num col.

(** ** The outside world *)

Definition nl : string := String "010"%char EmptyString.
Definition dquote : string := String "034"%char EmptyString.

(** External calls, in the order the script makes them. *)
Inductive event : Type :=
| LogInfo (msg : string)
| Print (msg : string)
| GcsReadCsv (path : string)
| BqClient (project : string)
| BqReadClient
| BqQuery (project query : string)
| StorageClient
| BlobUpload (bucket path data : string).

(** What the services answer.  Every call may raise (an I/O error). *)
Class Services : Type := {
  gcs_read_csv : string -> result DataFrame;
  bq_client : string -> result unit;
  bq_read_client : result unit;
  bq_query : string -> string -> result DataFrame;
  storage_client : result unit;
  blob_upload : string -> string -> string -> result unit
}.

(** Computations that call out: the trace of calls made so far goes in and
    comes out, also when an exception is raised. *)
Definition M (A : Type) : Type := list event -> result A * list event.

Definition ret {A : Type} (a : A) : M A := fun tr => (Ok a, tr).

Definition raise {A : Type} (e : pyerr) : M A := fun tr => (Raise e, tr).

Definition bind {A B : Type} (m : M A) (k : A -> M B) : M B :=
  fun tr =>
    match m tr with
    | (Ok a, tr') => k a tr'
    | (Raise e, tr') => (Raise e, tr')
    end.

Definition lift {A : Type} (r : result A) : M A := fun tr => (r, tr).

(** An external call: it is recorded, then it answers. *)
Definition call {A : Type} (e : event) (answer : result A) : M A :=
  fun tr => (answer, (tr ++ [e])%list).

Definition log_info (msg : string) : M unit := call (LogInfo msg) (Ok tt).

Declare Scope io_scope.
Delimit Scope io_scope with io.
Notation "x <- m ;; k" := (bind m (fun x => k))
  (at level 61, m at next level, right associativity) : io_scope.
Notation "m ;; k" := (bind m (fun _ => k))
  (at level 61, right associativity) : io_scope.

Local Open Scope io_scope.

(** ** Data loaders *)

Definition load_data_from_gcs `{Services} (data_gcs_path : string) : M DataFrame :=
  log_info ("reading gs data: " ++ data_gcs_path) ;;
  call (GcsReadCsv data_gcs_path) (gcs_read_csv data_gcs_path).

Definition not_bq_uri_msg : string :=
  "uri is not a BQ uri. It should be bq://project_id.dataset.table".

(** The message of the [ValueError] raised by a three-name tuple assignment
    from a list of another length. *)
Definition unpack3_msg {A : Type} (l : list A) : string :=
  match l with
  | [] => "not enough values to unpack (expected 3, got 0)"
  | [_] => "not enough values to unpack (expected 3, got 1)"
  | [_; _] => "not enough values to unpack (expected 3, got 2)"
  | _ => "too many values to unpack (expected 3)"
  end.

(** The query text: the triple-quoted literal with its line breaks and
    indentation. *)
Definition query_string (dataset table : string) : string :=
  nl ++ "    SELECT * from " ++ dataset ++ "." ++ table ++ nl ++ "    ".

Definition load_data_from_bq `{Services} (bq_uri : string) : M DataFrame :=
  if negb (Py.startswith "bq://" bq_uri) then raise (Exception not_bq_uri_msg)
  else
    log_info ("reading bq data: " ++ bq_uri) ;;
    match Py.split "." bq_uri with
    | [project; dataset; table] =>
        let project_id := Py.drop_start 5 project in
        call (BqClient project_id) (bq_client project_id) ;;
        call BqReadClient bq_read_client ;;
        let q := query_string dataset table in
        call (BqQuery project_id q) (bq_query project_id q)
    | parts => raise (ValueError (unpack3_msg parts))
    end.

(** ** Command line *)

(** What [add_argument] records for an option that takes a value: the
    conversion applied to the raw string (it may raise, which makes the
    parser exit), and the default, which is used as it stands when the
    option is absent. *)
Record argument (A : Type) : Type := {
  arg_type : string -> result A;
  arg_default : A
}.

Arguments arg_type {A} _ _.
Arguments arg_default {A} _.

(** [bool(s)] on a string: truthiness, false for the empty string only. *)
Definition py_bool (s : string) : bool :=
  match s with
  | EmptyString => false
  | String _ _ => true
  end.

Definition model_param_probability : argument bool :=
  {| arg_type := fun s => Ok (py_bool s); arg_default := true |}.

(** The value [parse_args] stores: [raw] is the string given on the command
    line, if any. *)
Definition parsed_value {A : Type} (a : argument A) (raw : option string) : result A :=
  match raw with
  | Some s => arg_type a s
  | None => Ok (arg_default a)
  end.

(** The entries of [arguments] that the loading step reads. *)
Record arguments : Type := {
  data_format : string;
  training_data_uri : string;
  validation_data_uri : string;
  test_data_uri : string
}.

(** The loading step of the main block: [(df_train, df_test, df_valid)]. *)
Definition load_tables `{Services} (args : arguments)
  : M (DataFrame * DataFrame * DataFrame) :=
  if String.eqb (data_format args) "csv" then
    df_train <- load_data_from_gcs (training_data_uri args) ;;
    df_test <- load_data_from_bq (test_data_uri args) ;;
    df_valid <- load_data_from_gcs (validation_data_uri args) ;;
    ret (df_train, df_test, df_valid)
  else if String.eqb (data_format args) "bigquery" then
    call (Print (training_data_uri args)) (Ok tt) ;;
    df_train <- load_data_from_bq (training_data_uri args) ;;
    df_test <- load_data_from_bq (test_data_uri args) ;;
    df_valid <- load_data_from_bq (validation_data_uri args) ;;
    ret (df_train, df_test, df_valid)
  else raise (ValueError "Invalid data type ").

(** ** Training *)

(** scikit-learn and numpy, as far as [train_pipeline] uses them.
    [cross_val_score] works on clones and leaves the estimator as it is;
    [fit] gives the estimator its fitted state. *)
Class Sklearn : Type := {
  Pipeline : Type;
  pyfloat : Type;
  ndarray : Type;
  cross_val_score : Pipeline -> DataFrame -> column -> nat -> result ndarray;
  ndarray_mean : ndarray -> pyfloat;
  fit : Pipeline -> DataFrame -> column -> result Pipeline;
  pickle_dumps : Pipeline -> string
}.

(** Calls into the toolkit, in order. *)
Inductive sk_event `{Sklearn} : Type :=
| CrossValScore (clf : Pipeline) (X : DataFrame) (y : column) (cv : nat)
| Fit (clf : Pipeline) (X : DataFrame) (y : column).

(** [clf] is mutated in place: the state of the object goes in, and the
    result carries its state after the call next to the returned score.  The
    list records the toolkit calls made, also when one of them raises. *)
Definition train_pipeline `{Sklearn} (clf : Pipeline) (X : DataFrame) (y : column)
  : result (pyfloat * Pipeline) * list sk_event :=
  match cross_val_score clf X y 10 with
  | Raise e => (Raise e, [CrossValScore clf X y 10])
  | Ok scores =>
      let score := ndarray_mean scores in
      match fit clf X y with
      | Raise e => (Raise e, [CrossValScore clf X y 10; Fit clf X y])
      | Ok fitted => (Ok (score, fitted), [CrossValScore clf X y 10; Fit clf X y])
      end
  end.

(** ** Export *)

Definition scheme_msg : string := "URI scheme must be gs".

Definition pipeline_export_gcs `{Services} `{Sklearn} (fitted_pipeline : Pipeline)
  (model_dir : string) : M string :=
  parsed <- lift (process_gcs_uri model_dir) ;;
  let '(scheme, bucket, path, file) := parsed in
  if negb (String.eqb scheme "gs:") then raise (ValueError scheme_msg)
  else
    call StorageClient storage_client ;;
    let export_path := Py.path_join path "model.pkl" in
    let data := pickle_dumps fitted_pipeline in
    call (BlobUpload bucket export_path data) (blob_upload bucket export_path data) ;;
    ret (scheme ++ "//" ++ Py.path_join bucket export_path).

Definition report_export_gcs `{Services} (report : string) (report_dir : string)
  : M string :=
  parsed <- lift (process_gcs_uri report_dir) ;;
  let '(scheme, bucket, path, file) := parsed in
  if negb (String.eqb scheme "gs:") then raise (ValueError scheme_msg)
  else
    call StorageClient storage_client ;;
    let export_path := Py.path_join path "report.txt" in
    call (BlobUpload bucket export_path report) (blob_upload bucket export_path report) ;;
    ret (scheme ++ "//" ++ Py.path_join bucket export_path).

(** ** Report *)

(** Python's and numpy's text renderings of floats and strings are library
    code: parameters of the model. *)
Class PyText : Type := {
  float64 : Type;
  float_str : float64 -> string;
  float_json : float64 -> string;
  str_repr : string -> string;
  json_string : string -> string
}.

(** The values a flat parameter record holds. *)
Inductive pyvalue `{PyText} : Type :=
| VStr (s : string)
| VInt (z : Z)
| VFloat (f : float64)
| VBool (b : bool).

(** A [dict] in insertion order. *)
Definition pydict `{PyText} : Type := list (string * pyvalue).

Definition int_str (z : Z) : string := NilZero.string_of_int (Z.to_int z).

Definition json_value `{PyText} (v : pyvalue) : string :=
  match v with
  | VStr s => json_string s
  | VInt z => int_str z
  | VFloat f => float_json f
  | VBool true => "true"
  | VBool false => "false"
  end.

(** [json.dumps(d)] for a flat [dict] with string keys. *)
Definition json_dumps_dict `{PyText} (d : pydict) : string :=
  "{" ++ Py.join ", " (map (fun kv => json_string (fst kv) ++ ": " ++ json_value (snd kv)) d)
  ++ "}".

(** An element of the example array. *)
Inductive npvalue `{PyText} : Type :=
| NpStr (s : string)
| NpFloat (f : float64).

Definition json_np `{PyText} (c : npvalue) : string :=
  match c with
  | NpStr s => json_string s
  | NpFloat f => float_json f
  end.

(** [json.dumps(example_data.tolist())] for a two-dimensional array. *)
Definition json_dumps_rows `{PyText} (rows : list (list npvalue)) : string :=
  "[" ++ Py.join ", " (map (fun r => "[" ++ Py.join ", " (map json_np r) ++ "]") rows) ++ "]".

(** [str(columns)] for a list of strings. *)
Definition str_list `{PyText} (l : list string) : string :=
  "[" ++ Py.join ", " (map str_repr l) ++ "]".

(** One pass of the inner loop. *)
Definition example_cell `{PyText} (buffer : string) (c : npvalue) : string :=
  match c with
  | NpStr s => buffer ++ "'" ++ s ++ "', "
  | NpFloat f => buffer ++ float_str f ++ ", "
  end.

(** One pass of the outer loop. *)
Definition example_row `{PyText} (buffer : string) (r : list npvalue) : string :=
  let buffer := buffer ++ "[" in
  let buffer := fold_left example_cell r buffer in
  Py.drop_end 2 buffer ++ "], " ++ nl.

Definition buffer_example_data `{PyText} (example_data : list (list npvalue)) : string :=
  let buffer := fold_left example_row example_data "[" in
  Py.drop_end 3 buffer ++ "]".

(** The pieces of the formatted template, in order. *)
Definition report_pieces `{PyText} (cv_score : float64) (model_params : pydict)
  (classification_report : string) (columns : list string)
  (example_data : list (list npvalue)) : list string :=
  [ nl; "Training Job Report    "; nl;
    "    "; nl;
    "Cross Validation Score: "; float_str cv_score; nl;
    nl;
    "Training Model Parameters: "; json_dumps_dict model_params; nl;
    "    "; nl;
    "Test Data Classification Report:"; nl;
    classification_report; nl;
    nl;
    "Example of data array for prediciton:"; nl;
    nl;
    "Order of columns:"; nl;
    str_list columns; nl;
    nl;
    "Example for clf.predict()"; nl;
    buffer_example_data example_data; nl;
    nl;
    nl;
    "Example of GCP API request body:"; nl;
    "{"; nl;
    "    "; dquote; "instances"; dquote; ": "; json_dumps_rows example_data; nl;
    "}"; nl;
    nl ].

Definition prepare_report `{PyText} (cv_score : float64) (model_params : pydict)
  (classification_report : string) (columns : list string)
  (example_data : list (list npvalue)) : string :=
  String.concat "" (report_pieces cv_score model_params classification_report columns
                      example_data).

(** [s in t] on strings. *)
Definition substring_of (s t : string) : Prop :=
  exists pre post, t = pre ++ s ++ post.

(** The parameter record the main block builds from the command line. *)
Definition model_params_of `{PyText} (kernel : string) (degree : Z) (C : float64)
  (probability : bool) : pydict :=
  [ ("kernel", VStr kernel); ("degree", VInt degree); ("C", VFloat C);
    ("probability", VBool probability) ].

(** ** Feature selection and module configuration *)

Definition NUMERIC_FEATURES : list string := ["p0"; "p1"; "p2"; "p3"; "p4"].

Definition ALL_COLUMNS : list string := NUMERIC_FEATURES.

Definition LABEL : string := "text".

Definition NUMERIC_FEATURES_IDX : list nat := seq 0 (List.length NUMERIC_FEATURES).

(** [df.loc[:, selected_columns]]: the named columns, in the order of the
    request.  pandas raises one [KeyError] that lists the names it did not
    find; the model keeps the first of them as the key. *)
Fixpoint loc_columns (df : DataFrame) (selected_columns : list string) : result DataFrame :=
  match selected_columns with
  | [] => Ok []
  | n :: rest =>
      (col <- getitem df n ;;
       data <- loc_columns df rest ;;
       Ok ((n, col) :: data))%result
  end.

Definition data_selection (df : DataFrame) (selected_columns : list string)
  (label_column : string) : result (DataFrame * column) :=
  (labels <- getitem df label_column ;;
   data <- loc_columns df selected_columns ;;
   Ok (data, labels))%result.

(** What the main block does with one loaded table: clean the numeric
    features in place, then split features and label. *)
Definition clean_and_select `{Pandas} (df : DataFrame) : result (DataFrame * column) :=
  match clean_missing_numerics df NUMERIC_FEATURES with
  | (df, None) => data_selection df ALL_COLUMNS LABEL
  | (_, Some e) => Raise e
  end.

(** No entry of the column is a string. *)
Definition no_strings (col : column) : bool :=
  forallb (fun c => match c with Str _ => false | _ => true end) col.

(** ** Reading the example array as the loops print it *)

(** The last [/]-separated segment of a path. *)
Definition last_segment (path : string) : string := List.last (Py.split "/" path) "".

(** One element as the inner loop prints it, without the separator. *)
Definition cell_text `{PyText} (c : npvalue) : string :=
  match c with
  | NpStr s => "'" ++ s ++ "'"
  | NpFloat f => float_str f
  end.

(** One row in brackets, its elements separated by a comma and a space. *)
Definition row_text `{PyText} (r : list npvalue) : string :=
  "[" ++ Py.join ", " (map cell_text r) ++ "]".

(** ** A closed environment to run the model on examples *)

(** A table with one unparsable entry in [p2]. *)
Definition sample_table : DataFrame :=
  [ ("p0", [Num (1 # 1); Num (2 # 1); Num (3 # 1)]);
    ("p2", [Str "4"; Str "oops"; Str "8"]);
    ("text", [Str "A"; Str "B"; Str "A"]) ].

(** A table whose [p2] column has no parsable entry. *)
Definition blank_table : DataFrame :=
  [ ("p2", [Str "n/a"; NaN]);
    ("text", [Str "A"; Str "B"]) ].

(** A table with the five feature columns and the label. *)
Definition full_table : DataFrame :=
  [ ("text", [Str "A"; Str "B"]);
    ("p0", [Num (1 # 1); Num (2 # 1)]);
    ("p1", [Str "3"; Str "5"]);
    ("p2", [Str "oops"; Str "8"]);
    ("p3", [NaN; NaN]);
    ("p4", [Num (0 # 1); NaN]) ].

(** Ten rows of one class, and the label column that goes with them. *)
Definition ten_labels : column := repeat (Str "A") 10.

Definition ten_rows : DataFrame :=
  [ ("p0", repeat (Num (1 # 1)) 10); ("text", ten_labels) ].

(** Services that answer every request, with [sample_table] for a read. *)
Definition sample_services : Services :=
  {| gcs_read_csv := fun _ => Ok sample_table;
     bq_client := fun _ => Ok tt;
     bq_read_client := Ok tt;
     bq_query := fun _ _ => Ok sample_table;
     storage_client := Ok tt;
     blob_upload := fun _ _ _ => Ok tt |}.

(** Two labels are the same class. *)
Definition same_label (a b : cell) : bool :=
  match a, b with
  | Str s, Str t => String.eqb s t
  | _, _ => false
  end.

(** Some class has at least [cv] members. *)
Definition splittable (y : column) (cv : nat) : bool :=
  existsb (fun c => (cv <=? List.length (filter (same_label c) y))%nat) y.

(** A toolkit whose estimator only remembers whether it was fitted.  As
    scikit-learn does for a classifier, cross-validation refuses labels of
    which no class has as many members as there are folds. *)
Definition sample_sklearn : Sklearn :=
  {| Pipeline := bool;
     pyfloat := Q;
     ndarray := list Q;
     cross_val_score := fun _ _ y cv =>
       if splittable y cv then Ok (repeat (1 # 2)%Q cv)
       else Raise (ValueError ("n_splits=" ++ int_str (Z.of_nat cv)
                               ++ " cannot be greater than the number of members in each class."));
     ndarray_mean := fun scores => (Qsum scores / inject_Z (Z.of_nat (List.length scores)))%Q;
     fit := fun _ _ _ => Ok true;
     pickle_dumps := fun fitted => if fitted then "fitted" else "unfitted" |}.

Definition sample_arguments : arguments :=
  {| data_format := "csv";
     training_data_uri := "gs://example_bucket/data/training-*.csv";
     validation_data_uri := "gs://example_bucket/data/validation-*.csv";
     test_data_uri := "gs://example_bucket/data/test-*.csv" |}.

(** Renderings for a toolkit whose floats are whole numbers, and for
    strings that need no escaping. *)
Definition sample_text : PyText :=
  {| float64 := Z;
     float_str := fun z => int_str z ++ ".0";
     float_json := fun z => int_str z ++ ".0";
     str_repr := fun s => "'" ++ s ++ "'";
     json_string := fun s => dquote ++ s ++ dquote |}.

(** * Properties *)

(** ** Strings and lists *)

Lemma append_empty_r (s : string) : s ++ "" = s.
Proof. induction s as [|c s IH]; simpl; [reflexivity | now rewrite IH]. Qed.

Lemma append_assoc_str (a b c : string) : (a ++ b) ++ c = a ++ b ++ c.
Proof. induction a as [|x a IH]; simpl; [reflexivity | now rewrite IH]. Qed.

Lemma split_not_nil (sep : ascii) (s : string) : Py.split sep s <> [].
Proof.
  destruct s as [|c r]; simpl; [discriminate|].
  destruct (Ascii.eqb c sep); [discriminate|].
  destruct (Py.split sep r); discriminate.
Qed.

Lemma split_app (sep : ascii) (a b : string) :
  Py.split sep (a ++ String sep b) = (Py.split sep a ++ Py.split sep b)%list.
Proof.
  induction a as [|c a IH]; simpl.
  - now rewrite Ascii.eqb_refl.
  - destruct (Ascii.eqb c sep); [now rewrite IH|].
    rewrite IH. destruct (Py.split sep a) as [|h t] eqn:E; [|reflexivity].
    now apply split_not_nil in E.
Qed.

Lemma split_no_sep (sep : ascii) (s : string) :
  Py.contains sep s = false -> Py.split sep s = [s].
Proof.
  induction s as [|c s IH]; simpl; [reflexivity|].
  destruct (Ascii.eqb c sep); [discriminate|].
  intros H. now rewrite (IH H).
Qed.

Lemma join_split (sep : ascii) (s : string) :
  Py.join (String sep "") (Py.split sep s) = s.
Proof.
  induction s as [|c s IH]; simpl; [reflexivity|].
  destruct (Ascii.eqb c sep) eqn:E.
  - apply Ascii.eqb_eq in E. subst c.
    destruct (Py.split sep s) as [|h t] eqn:Es; [now apply split_not_nil in Es|].
    simpl. now rewrite <- IH.
  - destruct (Py.split sep s) as [|h t] eqn:Es; [now apply split_not_nil in Es|].
    rewrite <- IH. destruct t; reflexivity.
Qed.

Lemma contains_app (c : ascii) (a b : string) :
  Py.contains c (a ++ b) = Py.contains c a || Py.contains c b.
Proof.
  induction a as [|d a IH]; simpl; [reflexivity|].
  destruct (Ascii.eqb d c); [reflexivity | exact IH].
Qed.

Lemma endswith_snoc (c : ascii) (s : string) : Py.endswith c (s ++ String c "") = true.
Proof.
  induction s as [|d s IH]; simpl; [apply Ascii.eqb_refl|].
  destruct (s ++ String c "") eqn:E; [destruct s; discriminate | exact IH].
Qed.

Lemma drop_last_snoc (c : ascii) (s : string) : Py.drop_last (s ++ String c "") = s.
Proof.
  induction s as [|d s IH]; simpl; [reflexivity|].
  destruct (s ++ String c "") eqn:E; [destruct s; discriminate | now rewrite IH].
Qed.

Lemma item_last_snoc {A : Type} (l : list A) (x : A) : Py.item_last (l ++ [x])%list = Ok x.
Proof. unfold Py.item_last. now rewrite rev_unit. Qed.

Lemma pop_rest_snoc {A : Type} (l : list A) (x : A) : Py.pop_rest (l ++ [x])%list = l.
Proof. apply removelast_last. Qed.

(** The tokens of [scheme://bucket/rest]. *)
Lemma split_uri (scheme bucket rest : string) :
  Py.contains "/" scheme = false ->
  Py.contains "/" bucket = false ->
  Py.split "/" (scheme ++ "://" ++ bucket ++ "/" ++ rest)
  = (scheme ++ ":") :: "" :: bucket :: Py.split "/" rest.
Proof.
  intros Hs Hb.
  change (scheme ++ "://" ++ bucket ++ "/" ++ rest)
    with (scheme ++ ":" ++ String "/" ("" ++ String "/" (bucket ++ String "/" rest))).
  rewrite <- append_assoc_str, !split_app.
  rewrite (split_no_sep "/" (scheme ++ ":")), (split_no_sep "/" bucket Hb).
  - reflexivity.
  - rewrite contains_app, Hs. reflexivity.
Qed.

(** ** URI parser *)

Example process_gcs_uri_file :
  process_gcs_uri "gs://example_bucket/training-job/v1/model.pkl"
  = Ok ("gs:", "example_bucket", "training-job/v1", "model.pkl").
Proof. reflexivity. Qed.

Example process_gcs_uri_dotted_dir :
  process_gcs_uri "gs://example_bucket/models/v1.2"
  = Ok ("gs:", "example_bucket", "models", "v1.2").
Proof. reflexivity. Qed.

(** C2, as stated, fails: the first component the parser returns for
    [gs://bucket/path/file.ext] is the token before the first slash, [gs:]
    with its colon, not [gs]. *)
Lemma process_gcs_uri_keeps_colon :
  process_gcs_uri "gs://bucket/path/file.ext" = Ok ("gs:", "bucket", "path", "file.ext")
  /\ process_gcs_uri "gs://bucket/path/file.ext" <> Ok ("gs", "bucket", "path", "file.ext")
  /\ process_gcs_uri "gs://bucket/path/" = Ok ("gs:", "bucket", "path", "")
  /\ process_gcs_uri "gs://bucket/path/" <> Ok ("gs", "bucket", "path", "").
Proof. repeat split; try reflexivity; discriminate. Qed.

(** C2 (amended): for a scheme and a bucket without slash, parsing
    [scheme://bucket/path/file] where [file] has a dot and no slash and
    [path] does not end in a slash yields [(scheme:, bucket, path, file)],
    the scheme keeping its colon; parsing [scheme://bucket/path/] yields
    [(scheme:, bucket, path, "")], the trailing slash removed. *)
Theorem process_gcs_uri_components (scheme bucket path file : string) :
  Py.contains "/" scheme = false ->
  Py.contains "/" bucket = false ->
  (Py.contains "/" file = false ->
   Py.contains "." file = true ->
   Py.endswith "/" path = false ->
   process_gcs_uri (scheme ++ "://" ++ bucket ++ "/" ++ path ++ "/" ++ file)
   = Ok (scheme ++ ":", bucket, path, file))
  /\ process_gcs_uri (scheme ++ "://" ++ bucket ++ "/" ++ path ++ "/")
     = Ok (scheme ++ ":", bucket, path, "").
Proof.
  intros Hs Hb. split.
  - intros Hf Hdot Hp. unfold process_gcs_uri.
    rewrite (split_uri scheme bucket (path ++ "/" ++ file) Hs Hb).
    change (path ++ "/" ++ file) with (path ++ String "/" file).
    rewrite split_app, (split_no_sep "/" file Hf).
    rewrite !app_comm_cons. cbv zeta. rewrite item_last_snoc. cbn [rbind].
    rewrite Hdot. cbn [negb]. rewrite pop_rest_snoc.
    cbn [Py.item nth_error rbind Py.slice_from skipn].
    rewrite join_split, Hp. reflexivity.
  - unfold process_gcs_uri.
    rewrite (split_uri scheme bucket (path ++ "/") Hs Hb).
    change (Py.split "/" (path ++ "/")) with (Py.split "/" (path ++ String "/" "")).
    rewrite split_app.
    change (Py.split "/" "") with [""].
    rewrite !app_comm_cons. cbv zeta. rewrite item_last_snoc.
    cbn [rbind Py.contains negb Py.item nth_error Py.slice_from skipn app].
    change [""] with (Py.split "/" "").
    rewrite <- split_app, join_split, endswith_snoc.
    unfold Py.drop_end. simpl. rewrite drop_last_snoc. reflexivity.
Qed.

Lemma process_gcs_uri_components_witness :
  process_gcs_uri ("gs" ++ "://" ++ "example_bucket" ++ "/" ++ "training-job/v1" ++ "/" ++ "model.pkl")
  = Ok ("gs" ++ ":", "example_bucket", "training-job/v1", "model.pkl")
  /\ process_gcs_uri ("gs" ++ "://" ++ "example_bucket" ++ "/" ++ "training-job/v1" ++ "/")
     = Ok ("gs" ++ ":", "example_bucket", "training-job/v1", "").
Proof.
  destruct (process_gcs_uri_components "gs" "example_bucket" "training-job/v1" "model.pkl"
              eq_refl eq_refl) as [Hfile Hdir].
  split; [apply Hfile; reflexivity | exact Hdir].
Defined.

(** C8: the parser is partial.  When fewer than three tokens are left
    after the optional pop, it raises [IndexError] (so for the empty string,
    for [path] and for [gs:/bucket]); when at least three are left, it
    returns a four-tuple. *)
Theorem process_gcs_uri_partial (uri : string) :
  (if Nat.ltb (List.length (url_arr_after_pop uri)) 3
   then process_gcs_uri uri = Raise IndexError
   else exists scheme bucket path file,
          process_gcs_uri uri = Ok (scheme, bucket, path, file))
  /\ process_gcs_uri "" = Raise IndexError
  /\ process_gcs_uri "path" = Raise IndexError
  /\ process_gcs_uri "gs:/bucket" = Raise IndexError.
Proof.
  split; [|repeat split; reflexivity].
  unfold url_arr_after_pop, process_gcs_uri.
  destruct (Py.item_last (Py.split "/" uri)) as [last_tok|e] eqn:E.
  - simpl rbind.
    destruct (negb (Py.contains "." last_tok)).
    + destruct (Py.split "/" uri) as [|t0 [|t1 [|t2 rest]]]; simpl; eauto.
    + destruct (Py.pop_rest (Py.split "/" uri)) as [|t0 [|t1 [|t2 rest]]]; simpl; eauto.
  - unfold Py.item_last in E.
    destruct (rev (Py.split "/" uri)) eqn:R; [|discriminate].
    apply (f_equal (@rev string)) in R. rewrite rev_involutive in R.
    now apply split_not_nil in R.
Qed.

(** ** Tables and cleaning *)

Section Cleaning.

Context `{P : Pandas}.

Lemma getitem_setitem_eq (df : DataFrame) (n : string) (col : column) :
  getitem (setitem df n col) n = Ok col.
Proof.
  induction df as [|[k old] rest IH]; simpl.
  - now rewrite String.eqb_refl.
  - destruct (String.eqb k n) eqn:E; simpl; rewrite E; [reflexivity | exact IH].
Qed.

Lemma getitem_setitem_ne (df : DataFrame) (n m : string) (col : column) :
  n <> m -> getitem (setitem df n col) m = getitem df m.
Proof.
  intros Hne. induction df as [|[k old] rest IH]; simpl.
  - destruct (String.eqb n m) eqn:E; [apply String.eqb_eq in E; contradiction | reflexivity].
  - destruct (String.eqb k n) eqn:E; simpl.
    + apply String.eqb_eq in E. subst k.
      destruct (String.eqb n m) eqn:E'; [apply String.eqb_eq in E'; contradiction | reflexivity].
    + destruct (String.eqb k m); [reflexivity | exact IH].
Qed.

Lemma setitem_setitem (df : DataFrame) (n : string) (a b : column) :
  setitem (setitem df n a) n b = setitem df n b.
Proof.
  induction df as [|[k old] rest IH]; simpl.
  - now rewrite String.eqb_refl.
  - destruct (String.eqb k n) eqn:E; simpl; rewrite E; [reflexivity | now rewrite IH].
Qed.

Lemma columns_of_setitem (df : DataFrame) (n : string) (old col : column) :
  getitem df n = Ok old -> columns_of (setitem df n col) = columns_of df.
Proof.
  unfold columns_of. induction df as [|[k c] rest IH]; simpl; [discriminate|].
  destruct (String.eqb k n); simpl; [reflexivity|].
  intros H. now rewrite (IH H).
Qed.

(** The loop body, once the column is known to exist. *)
Lemma clean_step (df : DataFrame) (n : string) (rest : list string) (raw : column) :
  getitem df n = Ok raw ->
  clean_missing_numerics df (n :: rest)
  = clean_missing_numerics (setitem df n (clean_column raw)) rest.
Proof.
  intros H. simpl. rewrite H, getitem_setitem_eq, setitem_setitem. reflexivity.
Qed.

Lemma clean_step_absent (df : DataFrame) (n : string) (rest : list string) (e : pyerr) :
  getitem df n = Raise e -> clean_missing_numerics df (n :: rest) = (df, Some e).
Proof. intros H. simpl. now rewrite H. Qed.

Lemma coerce_idempotent (c : cell) : coerce (coerce c) = coerce c.
Proof. destruct c as [x| |s]; simpl; [reflexivity..|]. now destruct (parse_numeric s). Qed.

Lemma to_numeric_idempotent (col : column) : to_numeric (to_numeric col) = to_numeric col.
Proof. unfold to_numeric. rewrite map_map. apply map_ext, coerce_idempotent. Qed.

Lemma fillna_NaN (col : column) : fillna col NaN = col.
Proof.
  unfold fillna. rewrite <- (map_id col) at 2. apply map_ext. now intros [x| |s].
Qed.

Lemma clean_column_map (col : column) :
  clean_column col = map (impute (series_mean (to_numeric col))) col.
Proof.
  unfold clean_column, fillna, to_numeric. rewrite map_map. apply map_ext.
  intros c. unfold impute. now destruct (coerce c).
Qed.

Lemma impute_num (x : float_value) (c : cell) : exists y, impute (Num x) c = Num y.
Proof.
  unfold impute. destruct c as [y| |s]; simpl; eauto.
  destruct (parse_numeric s); eauto.
Qed.

Lemma present_all_num (col : column) :
  forallb is_num col = true -> fillna (to_numeric col) (series_mean (to_numeric col)) = col.
Proof.
  intros H. unfold clean_column.
  assert (E : forall v, fillna (to_numeric col) v = col).
  { intros v. induction col as [|[x| |s] col IH]; simpl in *; try discriminate;
      [reflexivity | now rewrite IH]. }
  apply E.
Qed.

Lemma clean_column_num (col : column) (x : float_value) :
  series_mean (to_numeric col) = Num x -> forallb is_num (clean_column col) = true.
Proof.
  intros Hm. rewrite clean_column_map, Hm, forallb_forall.
  intros c Hc. apply in_map_iff in Hc. destruct Hc as [c0 [<- _]].
  destruct (impute_num x c0) as [y ->]. reflexivity.
Qed.

Lemma clean_column_idempotent (col : column) :
  clean_column (clean_column col) = clean_column col.
Proof.
  destruct (series_mean (to_numeric col)) as [x| |s] eqn:Hm.
  - apply present_all_num. now apply (clean_column_num col x).
  - assert (E : clean_column col = to_numeric col)
      by (unfold clean_column; rewrite Hm; apply fillna_NaN).
    rewrite E. unfold clean_column. rewrite to_numeric_idempotent, Hm. apply fillna_NaN.
  - unfold series_mean in Hm.
    destruct (present (to_numeric col)); [discriminate|].
    destruct (mean_of _); discriminate.
Qed.

Lemma count_missing_all_num (col : column) :
  forallb is_num col = true -> count_missing col = 0.
Proof.
  unfold count_missing.
  induction col as [|[x| |s] col IH]; simpl; try discriminate; auto.
Qed.

(** What a call leaves in the table, whether it ends normally or not. *)
Lemma clean_invariant (cols : list string) : forall df : DataFrame,
  columns_of (fst (clean_missing_numerics df cols)) = columns_of df
  /\ (forall n, ~ In n cols ->
        getitem (fst (clean_missing_numerics df cols)) n = getitem df n)
  /\ (forall n col, getitem df n = Ok col ->
        getitem (fst (clean_missing_numerics df cols)) n = Ok col
        \/ getitem (fst (clean_missing_numerics df cols)) n = Ok (clean_column col)).
Proof.
  induction cols as [|c cols IH]; intros df.
  - simpl. repeat split; auto.
  - destruct (getitem df c) as [raw|e] eqn:Hc.
    + rewrite (clean_step df c cols raw Hc).
      destruct (IH (setitem df c (clean_column raw))) as (Hcols & Hframe & Hcell).
      split; [|split].
      * rewrite Hcols. now apply columns_of_setitem with raw.
      * intros n Hn. rewrite Hframe by (intros Hin; apply Hn; now right).
        apply getitem_setitem_ne. intros ->. apply Hn. now left.
      * intros n col Hn. destruct (string_dec c n) as [->|Hne].
        -- rewrite Hc in Hn. injection Hn as <-. right.
           destruct (Hcell n (clean_column raw) (getitem_setitem_eq df n _)) as [H|H];
             rewrite H; [reflexivity | now rewrite clean_column_idempotent].
        -- apply Hcell. now rewrite getitem_setitem_ne.
    + rewrite (clean_step_absent df c cols e Hc). simpl. repeat split; auto.
Qed.

(** A call on columns that all exist ends normally and has cleaned each. *)
Lemma clean_present (cols : list string) : forall df : DataFrame,
  (forall n, In n cols -> exists col, getitem df n = Ok col) ->
  snd (clean_missing_numerics df cols) = None
  /\ (forall n col, In n cols -> getitem df n = Ok col ->
        getitem (fst (clean_missing_numerics df cols)) n = Ok (clean_column col)).
Proof.
  induction cols as [|c cols IH]; intros df Hall.
  - simpl. split; [reflexivity | contradiction].
  - destruct (Hall c (or_introl eq_refl)) as [raw Hc].
    rewrite (clean_step df c cols raw Hc).
    assert (Hall' : forall n, In n cols ->
              exists col, getitem (setitem df c (clean_column raw)) n = Ok col).
    { intros n Hn. destruct (string_dec c n) as [->|Hne].
      - rewrite getitem_setitem_eq. eauto.
      - rewrite getitem_setitem_ne by assumption. apply Hall. now right. }
    destruct (IH _ Hall') as [Hnone Hcell]. split; [exact Hnone|].
    intros n col Hin Hn. destruct (string_dec c n) as [->|Hne].
    + rewrite Hc in Hn. injection Hn as <-.
      destruct (in_dec string_dec n cols) as [Hi|Hni].
      * rewrite (Hcell n (clean_column raw) Hi (getitem_setitem_eq df n _)).
        now rewrite clean_column_idempotent.
      * destruct (clean_invariant cols (setitem df n (clean_column raw))) as (_ & Hframe & _).
        rewrite (Hframe n Hni). apply getitem_setitem_eq.
    + destruct Hin as [->|Hin]; [contradiction|].
      apply Hcell; [exact Hin | now rewrite getitem_setitem_ne].
Qed.

End Cleaning.

(** C3, as stated, fails: a column in which no entry can be read as a number
    has no mean, and its entries stay missing. *)
Lemma clean_missing_numerics_all_missing :
  @clean_missing_numerics digits_pandas blank_table ["p2"]
  = ([("p2", [NaN; NaN]); ("text", [Str "A"; Str "B"])], None)
  /\ fully_numeric [NaN; NaN] = false
  /\ count_missing [NaN; NaN] = 2.
Proof. repeat split. Qed.

(** C3 (amended): when every name in [C] is a column of [T], cleaning ends
    normally and each column named in [C] holds, entry by entry, the coerced
    value, or the column's mean, taken over its successfully coerced values,
    where coercion fails.  When that mean is a number the cleaned column is
    fully numeric with no missing entry.  When it is NaN, because no entry
    can be coerced or because the mean of the coerced entries is NaN as for
    both infinities together, the entries that fail coercion stay missing. *)
Theorem clean_missing_numerics_imputes `{P : Pandas} (T : DataFrame) (C : list string) :
  (forall n, In n C -> exists col, getitem T n = Ok col) ->
  snd (clean_missing_numerics T C) = None
  /\ forall n col, In n C -> getitem T n = Ok col ->
       getitem (fst (clean_missing_numerics T C)) n
       = Ok (map (impute (series_mean (to_numeric col))) col)
       /\ (series_mean (to_numeric col) <> NaN ->
           fully_numeric (map (impute (series_mean (to_numeric col))) col) = true
           /\ count_missing (map (impute (series_mean (to_numeric col))) col) = 0)
       /\ (series_mean (to_numeric col) = NaN ->
           map (impute (series_mean (to_numeric col))) col = to_numeric col).
Proof.
  intros Hall. destruct (clean_present C T Hall) as [Hnone Hcell].
  split; [exact Hnone|]. intros n col Hin Hn.
  rewrite <- clean_column_map. split; [now apply Hcell|]. split.
  - intros Hsome.
    assert (Hnum : forallb is_num (clean_column col) = true).
    { destruct (series_mean (to_numeric col)) as [x| |s] eqn:Hm.
      - now apply clean_column_num with x.
      - now elim Hsome.
      - unfold series_mean in Hm.
        destruct (present (to_numeric col)); [discriminate|].
        destruct (mean_of _); discriminate. }
    split; [exact Hnum | now apply count_missing_all_num].
  - intros Hnan. unfold clean_column. rewrite Hnan. apply fillna_NaN.
Qed.

Lemma clean_missing_numerics_imputes_witness :
  snd (@clean_missing_numerics digits_pandas sample_table ["p0"; "p2"]) = None
  /\ getitem (fst (@clean_missing_numerics digits_pandas sample_table ["p0"; "p2"])) "p2"
     = Ok [Num (4 # 1); Num (12 # 2); Num (8 # 1)]
  /\ fully_numeric [Num (4 # 1); Num (12 # 2); Num (8 # 1)] = true
  /\ count_missing [Num (4 # 1); Num (12 # 2); Num (8 # 1)] = 0.
Proof.
  assert (Hall : forall n, In n ["p0"; "p2"] -> exists col, getitem sample_table n = Ok col).
  { intros n [<-|[<-|[]]]; eexists; reflexivity. }
  destruct (@clean_missing_numerics_imputes digits_pandas sample_table ["p0"; "p2"] Hall)
    as [Hnone Hcell].
  split; [exact Hnone|].
  destruct (Hcell "p2" [Str "4"; Str "oops"; Str "8"] (or_intror (or_introl eq_refl)) eq_refl)
    as (Hcol & Hnum & _).
  split; [exact Hcol|].
  apply Hnum. discriminate.
Defined.

(** Two entries can be read, the infinities, and their mean is NaN: the
    third entry stays missing. *)
Example clean_missing_numerics_infinities :
  @clean_missing_numerics digits_pandas
     [("p2", [Num PosInf; Num NegInf; Str "oops"])] ["p2"]
  = ([("p2", [Num PosInf; Num NegInf; NaN])], None).
Proof. reflexivity. Qed.

(** C9: whatever the table and the list of names, cleaning keeps the
    columns and their order, leaves every column not named in the list as it
    was, and keeps every column's length; a column is either unchanged or
    rewritten entry by entry, so row [i] stays row [i]. *)
Theorem clean_missing_numerics_frame `{P : Pandas} (T : DataFrame) (C : list string) :
  columns_of (fst (clean_missing_numerics T C)) = columns_of T
  /\ (forall n, ~ In n C -> getitem (fst (clean_missing_numerics T C)) n = getitem T n)
  /\ (forall n col, getitem T n = Ok col ->
        exists col', getitem (fst (clean_missing_numerics T C)) n = Ok col'
                     /\ List.length col' = List.length col
                     /\ (col' = col
                         \/ col' = map (impute (series_mean (to_numeric col))) col)).
Proof.
  destruct (clean_invariant C T) as (Hcols & Hframe & Hcell).
  split; [exact Hcols|]. split; [exact Hframe|].
  intros n col Hn. destruct (Hcell n col Hn) as [H|H].
  - exists col. auto.
  - exists (clean_column col). split; [exact H|].
    rewrite clean_column_map. split; [apply length_map | now right].
Qed.

Example clean_missing_numerics_sample :
  @clean_missing_numerics digits_pandas sample_table ["p2"; "p9"; "p0"]
  = ([ ("p0", [Num (1 # 1); Num (2 # 1); Num (3 # 1)]);
       ("p2", [Num (4 # 1); Num (12 # 2); Num (8 # 1)]);
       ("text", [Str "A"; Str "B"; Str "A"]) ],
     Some (KeyError "p9")).
Proof. reflexivity. Qed.

(** ** Loading *)

Ltac run_io := cbv beta iota zeta delta [bind call log_info raise ret lift].

(** C5, as stated, fails: a reference with the prefix that does not split on
    dots into three parts passes the check, and the tuple assignment raises
    before a client exists or a query is issued. *)
Lemma load_data_from_bq_malformed :
  Py.startswith "bq://" "bq://example_table" = true
  /\ @load_data_from_bq sample_services "bq://example_table" []
     = (Raise (ValueError "not enough values to unpack (expected 3, got 1)"),
        [LogInfo "reading bq data: bq://example_table"]).
Proof. split; reflexivity. Qed.

(** C5 (amended): a reference without the prefix raises the input error
    with no call made at all.  With the prefix the check passes; when the
    reference splits on dots into exactly three parts and both clients can
    be built, the full-table query on [dataset.table] is issued; when it
    splits into another number of parts a [ValueError] is raised before any
    client is built. *)
Theorem load_data_from_bq_prefix `{S : Services} (bq_uri : string) (tr : list event) :
  (Py.startswith "bq://" bq_uri = false ->
   load_data_from_bq bq_uri tr = (Raise (Exception not_bq_uri_msg), tr))
  /\ (Py.startswith "bq://" bq_uri = true ->
      (forall project dataset table,
         Py.split "." bq_uri = [project; dataset; table] ->
         bq_client (Py.drop_start 5 project) = Ok tt ->
         bq_read_client = Ok tt ->
         load_data_from_bq bq_uri tr
         = (bq_query (Py.drop_start 5 project) (query_string dataset table),
            (tr ++ [ LogInfo ("reading bq data: " ++ bq_uri);
                     BqClient (Py.drop_start 5 project);
                     BqReadClient;
                     BqQuery (Py.drop_start 5 project) (query_string dataset table) ])%list))
      /\ (List.length (Py.split "." bq_uri) <> 3 ->
          load_data_from_bq bq_uri tr
          = (Raise (ValueError (unpack3_msg (Py.split "." bq_uri))),
             (tr ++ [LogInfo ("reading bq data: " ++ bq_uri)])%list))).
Proof.
  unfold load_data_from_bq. split.
  - intros ->. reflexivity.
  - intros ->. cbn [negb]. split.
    + intros project dataset table -> Hc Hr. run_io. rewrite Hc, Hr.
      rewrite <- !app_assoc. reflexivity.
    + intros Hlen. run_io.
      destruct (Py.split "." bq_uri) as [|a [|b [|c [|d l]]]]; try reflexivity.
      now elim Hlen.
Qed.

Lemma load_data_from_bq_prefix_witness :
  @load_data_from_bq sample_services "example_project.example_dataset.example_table" []
  = (Raise (Exception not_bq_uri_msg), [])
  /\ @load_data_from_bq sample_services "bq://example_project.example_dataset.example_table" []
     = (Ok sample_table,
        [ LogInfo "reading bq data: bq://example_project.example_dataset.example_table";
          BqClient "example_project";
          BqReadClient;
          BqQuery "example_project" (query_string "example_dataset" "example_table") ]).
Proof.
  split.
  - exact (proj1 (@load_data_from_bq_prefix sample_services
                    "example_project.example_dataset.example_table" []) eq_refl).
  - exact (proj1 (proj2 (@load_data_from_bq_prefix sample_services
                           "bq://example_project.example_dataset.example_table" []) eq_refl)
             "bq://example_project" "example_dataset" "example_table"
             eq_refl eq_refl eq_refl).
Defined.

(** C1: in csv mode the script asks the warehouse loader, not the CSV
    loader, for the test table.  With a test URI that is no warehouse
    reference the run stops there: the training table has been read, the
    test URI is never read from object storage. *)
Theorem load_tables_csv_test_from_warehouse `{S : Services} (args : arguments)
  (tr : list event) (df : DataFrame) :
  data_format args = "csv" ->
  gcs_read_csv (training_data_uri args) = Ok df ->
  Py.startswith "bq://" (test_data_uri args) = false ->
  load_tables args tr
  = (Raise (Exception not_bq_uri_msg),
     (tr ++ [ LogInfo ("reading gs data: " ++ training_data_uri args);
              GcsReadCsv (training_data_uri args) ])%list).
Proof.
  intros Hfmt Hread Hpre. unfold load_tables, load_data_from_gcs, load_data_from_bq.
  rewrite Hfmt, Hpre. cbn [String.eqb Ascii.eqb Bool.eqb negb]. run_io.
  rewrite Hread, <- app_assoc. reflexivity.
Qed.

Lemma load_tables_csv_test_from_warehouse_witness :
  @load_tables sample_services sample_arguments []
  = (Raise (Exception not_bq_uri_msg),
     [ LogInfo "reading gs data: gs://example_bucket/data/training-*.csv";
       GcsReadCsv "gs://example_bucket/data/training-*.csv" ]).
Proof.
  exact (@load_tables_csv_test_from_warehouse sample_services sample_arguments []
           sample_table eq_refl eq_refl eq_refl).
Defined.

(** In csv mode with a test URI that is a warehouse reference, the test
    table comes from the warehouse. *)
Example load_tables_csv_queries_warehouse :
  @load_tables sample_services
     {| data_format := "csv";
        training_data_uri := "gs://b/train.csv";
        validation_data_uri := "gs://b/valid.csv";
        test_data_uri := "bq://p.d.t" |} []
  = (Ok (sample_table, sample_table, sample_table),
     [ LogInfo "reading gs data: gs://b/train.csv"; GcsReadCsv "gs://b/train.csv";
       LogInfo "reading bq data: bq://p.d.t"; BqClient "p"; BqReadClient;
       BqQuery "p" (query_string "d" "t");
       LogInfo "reading gs data: gs://b/valid.csv"; GcsReadCsv "gs://b/valid.csv" ]).
Proof. reflexivity. Qed.

(** With [bigquery] all three tables come from the warehouse. *)
Example load_tables_bigquery :
  @load_tables sample_services
     {| data_format := "bigquery";
        training_data_uri := "bq://p.d.train";
        validation_data_uri := "bq://p.d.valid";
        test_data_uri := "bq://p.d.test" |} []
  = (Ok (sample_table, sample_table, sample_table),
     [ Print "bq://p.d.train";
       LogInfo "reading bq data: bq://p.d.train"; BqClient "p"; BqReadClient;
       BqQuery "p" (query_string "d" "train");
       LogInfo "reading bq data: bq://p.d.test"; BqClient "p"; BqReadClient;
       BqQuery "p" (query_string "d" "test");
       LogInfo "reading bq data: bq://p.d.valid"; BqClient "p"; BqReadClient;
       BqQuery "p" (query_string "d" "valid") ]).
Proof. reflexivity. Qed.

(** ** Export *)

(** C4: when the directory URI parses and its scheme is not [gs:], both
    exports raise the scheme error and the trace of external calls is left as
    it was: no storage client is built and nothing is uploaded. *)
Theorem export_rejects_scheme `{S : Services} `{K : Sklearn} (fitted_pipeline : Pipeline)
  (report dir_uri scheme bucket path file : string) (tr : list event) :
  process_gcs_uri dir_uri = Ok (scheme, bucket, path, file) ->
  scheme <> "gs:" ->
  pipeline_export_gcs fitted_pipeline dir_uri tr = (Raise (ValueError scheme_msg), tr)
  /\ report_export_gcs report dir_uri tr = (Raise (ValueError scheme_msg), tr).
Proof.
  intros Hparse Hscheme.
  assert (E : String.eqb scheme "gs:" = false) by now apply String.eqb_neq.
  unfold pipeline_export_gcs, report_export_gcs. rewrite Hparse. run_io.
  rewrite E. split; reflexivity.
Qed.

Lemma export_rejects_scheme_witness :
  @pipeline_export_gcs sample_services sample_sklearn true "http://bucket/path" []
  = (Raise (ValueError scheme_msg), [])
  /\ @report_export_gcs sample_services "Training Job Report" "http://bucket/path" []
     = (Raise (ValueError scheme_msg), []).
Proof.
  apply (@export_rejects_scheme sample_services sample_sklearn true "Training Job Report"
           "http://bucket/path" "http:" "bucket" "path" "" []).
  - reflexivity.
  - discriminate.
Defined.

(** A URI the parser rejects stops both exports as well, with its
    [IndexError]. *)
Lemma export_unparsed `{S : Services} `{K : Sklearn} (fitted_pipeline : Pipeline)
  (report dir_uri : string) (e : pyerr) (tr : list event) :
  process_gcs_uri dir_uri = Raise e ->
  pipeline_export_gcs fitted_pipeline dir_uri tr = (Raise e, tr)
  /\ report_export_gcs report dir_uri tr = (Raise e, tr).
Proof.
  intros Hparse. unfold pipeline_export_gcs, report_export_gcs.
  rewrite Hparse. split; reflexivity.
Qed.

Example pipeline_export_gcs_sample :
  @pipeline_export_gcs sample_services sample_sklearn true "gs://example_bucket/training-job" []
  = (Ok "gs://example_bucket/training-job/model.pkl",
     [StorageClient; BlobUpload "example_bucket" "training-job/model.pkl" "fitted"]).
Proof. reflexivity. Qed.

(** ** Training *)

(** C6, as stated, fails: on a table of three rows no class has ten
    members, the toolkit's cross-validation raises, and training neither
    fits the pipeline nor returns a score. *)
Lemma train_pipeline_small_table :
  @train_pipeline sample_sklearn false sample_table [Str "A"; Str "B"; Str "A"]
  = (Raise (ValueError
              "n_splits=10 cannot be greater than the number of members in each class."),
     [@CrossValScore sample_sklearn false sample_table [Str "A"; Str "B"; Str "A"] 10]).
Proof. reflexivity. Qed.

(** C6 (amended): training first asks the toolkit for the
    cross-validation scores of the pipeline with [cv = 10] on [X] and [y].
    When that succeeds it then fits the pipeline itself on the whole of [X]
    and [y], and when the fit succeeds it returns the mean of the
    cross-validation scores, the pipeline being in its fitted state.  When
    cross-validation raises, the error goes to the caller and the pipeline
    is never fitted; when the fit raises, the error goes to the caller and
    the score is lost. *)
Theorem train_pipeline_cv_then_fit `{K : Sklearn} (clf : Pipeline) (X : DataFrame)
  (y : column) :
  (forall scores fitted,
     cross_val_score clf X y 10 = Ok scores ->
     fit clf X y = Ok fitted ->
     train_pipeline clf X y
     = (Ok (ndarray_mean scores, fitted), [CrossValScore clf X y 10; Fit clf X y]))
  /\ (forall e,
        cross_val_score clf X y 10 = Raise e ->
        train_pipeline clf X y = (Raise e, [CrossValScore clf X y 10]))
  /\ (forall scores e,
        cross_val_score clf X y 10 = Ok scores ->
        fit clf X y = Raise e ->
        train_pipeline clf X y = (Raise e, [CrossValScore clf X y 10; Fit clf X y])).
Proof.
  unfold train_pipeline. repeat split.
  - intros scores fitted Hcv Hfit. now rewrite Hcv, Hfit.
  - intros e Hcv. now rewrite Hcv.
  - intros scores e Hcv Hfit. now rewrite Hcv, Hfit.
Qed.

Lemma train_pipeline_cv_then_fit_witness :
  @train_pipeline sample_sklearn false ten_rows ten_labels
  = (Ok (@ndarray_mean sample_sklearn (repeat (1 # 2)%Q 10), true),
     [ @CrossValScore sample_sklearn false ten_rows ten_labels 10;
       @Fit sample_sklearn false ten_rows ten_labels ]).
Proof.
  exact (proj1 (@train_pipeline_cv_then_fit sample_sklearn false ten_rows ten_labels)
           (repeat (1 # 2)%Q 10) true eq_refl eq_refl).
Defined.

(** ** Command line *)

(** C10: the probability flag is converted by truthiness of the raw
    string.  Every non-empty value gives [True], among them [False], [0] and
    [no]; the empty string gives [False]; an absent flag gives the default
    [True]. *)
Theorem model_param_probability_truthiness (s : string) :
  s <> "" ->
  parsed_value model_param_probability (Some s) = Ok true
  /\ parsed_value model_param_probability (Some "False") = Ok true
  /\ parsed_value model_param_probability (Some "0") = Ok true
  /\ parsed_value model_param_probability (Some "no") = Ok true
  /\ parsed_value model_param_probability (Some "") = Ok false
  /\ parsed_value model_param_probability None = Ok true.
Proof.
  intros Hs. repeat split.
  destruct s; [contradiction | reflexivity].
Qed.

Lemma model_param_probability_truthiness_witness :
  parsed_value model_param_probability (Some "false") = Ok true.
Proof.
  assert (H : "false" <> "") by discriminate.
  exact (proj1 (model_param_probability_truthiness "false" H)).
Defined.

(** ** Report *)

Lemma substring_of_refl (s : string) : substring_of s s.
Proof. exists "", "". simpl. now rewrite append_empty_r. Qed.

Lemma substring_of_trans (a b c : string) :
  substring_of a b -> substring_of b c -> substring_of a c.
Proof.
  intros [p1 [q1 ->]] [p2 [q2 ->]]. exists (p2 ++ p1), (q1 ++ q2).
  now rewrite !append_assoc_str.
Qed.

Lemma substring_of_prefix (s t : string) : substring_of s (s ++ t).
Proof. exists "", t. reflexivity. Qed.

Lemma concat_cons (x : string) (l : list string) :
  String.concat "" (x :: l) = x ++ String.concat "" l.
Proof. destruct l; simpl; [now rewrite append_empty_r | reflexivity]. Qed.

Lemma concat_app (l1 l2 : list string) :
  String.concat "" (l1 ++ l2)%list = String.concat "" l1 ++ String.concat "" l2.
Proof.
  induction l1 as [|x l1 IH]; [reflexivity|].
  change ((x :: l1) ++ l2)%list with (x :: (l1 ++ l2)%list).
  now rewrite !concat_cons, IH, append_assoc_str.
Qed.

(** Two pieces that follow each other in the list follow each other in the
    text. *)
Lemma substring_of_pieces (l1 l2 : list string) (x y : string) :
  substring_of (x ++ y) (String.concat "" (l1 ++ x :: y :: l2)%list).
Proof.
  exists (String.concat "" l1), (String.concat "" l2).
  now rewrite concat_app, !concat_cons, !append_assoc_str.
Qed.

(** C7: whatever the score, the parameters, the metrics text, the columns
    and the example rows, the report contains the three headings, and
    contains after the parameters heading the JSON serialization of the
    parameter record it was given. *)
Theorem prepare_report_contents `{T : PyText} (cv_score : float64) (model_params : pydict)
  (classification_report : string) (columns : list string)
  (example_data : list (list npvalue)) :
  substring_of "Cross Validation Score:"
    (prepare_report cv_score model_params classification_report columns example_data)
  /\ substring_of "Training Model Parameters:"
       (prepare_report cv_score model_params classification_report columns example_data)
  /\ substring_of "Example of GCP API request body:"
       (prepare_report cv_score model_params classification_report columns example_data)
  /\ substring_of ("Training Model Parameters: " ++ json_dumps_dict model_params)
       (prepare_report cv_score model_params classification_report columns example_data).
Proof.
  unfold prepare_report, report_pieces. repeat split.
  - apply substring_of_trans with ("Cross Validation Score: " ++ float_str cv_score).
    + exists "", (" " ++ float_str cv_score). reflexivity.
    + apply (substring_of_pieces [_; _; _; _; _]).
  - apply substring_of_trans with ("Training Model Parameters: " ++ json_dumps_dict model_params).
    + exists "", (" " ++ json_dumps_dict model_params). reflexivity.
    + apply (substring_of_pieces [_; _; _; _; _; _; _; _; _]).
  - apply substring_of_trans with ("Example of GCP API request body:" ++ nl).
    + apply substring_of_prefix.
    + apply (substring_of_pieces
               [_; _; _; _; _; _; _; _; _; _; _; _; _; _; _; _; _; _; _; _; _; _; _; _; _; _; _;
                _; _; _; _; _; _]).
  - apply (substring_of_pieces [_; _; _; _; _; _; _; _; _]).
Qed.

Example json_dumps_dict_sample :
  @json_dumps_dict sample_text (@model_params_of sample_text "linear" 3 1%Z true)
  = "{" ++ dquote ++ "kernel" ++ dquote ++ ": " ++ dquote ++ "linear" ++ dquote ++ ", "
    ++ dquote ++ "degree" ++ dquote ++ ": 3, "
    ++ dquote ++ "C" ++ dquote ++ ": 1.0, "
    ++ dquote ++ "probability" ++ dquote ++ ": true}".
Proof. reflexivity. Qed.

Example buffer_example_data_sample :
  @buffer_example_data sample_text
     [ [@NpFloat sample_text 1%Z; @NpFloat sample_text 2%Z];
       [@NpFloat sample_text 3%Z; @NpFloat sample_text 4%Z] ]
  = "[[1.0, 2.0], " ++ nl ++ "[3.0, 4.0]]".
Proof. reflexivity. Qed.

Example buffer_example_data_empty : @buffer_example_data sample_text [] = "]".
Proof. reflexivity. Qed.

(** * Further properties *)

(** ** URI parser: shapes, invariants, edge cases *)

Lemma item_last_cons {A : Type} (x : A) (l : list A) :
  l <> [] -> Py.item_last (x :: l) = Py.item_last l.
Proof.
  intros Hl. destruct (exists_last Hl) as [l' [y ->]].
  rewrite app_comm_cons, !item_last_snoc. reflexivity.
Qed.

Lemma item_last_last {A : Type} (l : list A) (d : A) :
  l <> [] -> Py.item_last l = Ok (List.last l d).
Proof.
  intros Hl. destruct (exists_last Hl) as [l' [y ->]].
  now rewrite item_last_snoc, last_last.
Qed.

Lemma pop_rest_cons {A : Type} (x : A) (l : list A) :
  l <> [] -> Py.pop_rest (x :: l) = x :: Py.pop_rest l.
Proof. intros Hl. destruct l; [contradiction | reflexivity]. Qed.

Lemma split_tokens_no_sep (sep : ascii) (s : string) :
  Forall (fun t => Py.contains sep t = false) (Py.split sep s).
Proof.
  induction s as [|c s IH]; simpl.
  - constructor; [reflexivity | constructor].
  - destruct (Ascii.eqb c sep) eqn:E.
    + constructor; [reflexivity | exact IH].
    + destruct (Py.split sep s) as [|h t]; inversion IH; subst;
        constructor; simpl; try rewrite E; auto.
Qed.

Lemma Forall_removelast {A : Type} (Q : A -> Prop) (l : list A) :
  Forall Q l -> Forall Q (removelast l).
Proof.
  induction 1 as [|x l Hx Hl IH]; simpl; [constructor|].
  destruct l; [constructor | now constructor].
Qed.

Lemma item_Forall {A : Type} (Q : A -> Prop) (l : list A) (i : nat) (x : A) :
  Forall Q l -> Py.item l i = Ok x -> Q x.
Proof.
  intros Hall. unfold Py.item. destruct (nth_error l i) eqn:E; [|discriminate].
  intros [= <-]. rewrite Forall_forall in Hall. apply Hall. now apply nth_error_In with i.
Qed.

Lemma item_last_Forall {A : Type} (Q : A -> Prop) (l : list A) (x : A) :
  Forall Q l -> Py.item_last l = Ok x -> Q x.
Proof.
  intros Hall. unfold Py.item_last. destruct (rev l) as [|y r] eqn:E; [discriminate|].
  intros [= <-]. rewrite Forall_forall in Hall. apply Hall.
  apply in_rev. rewrite E. now left.
Qed.

(** The parser on [scheme://bucket/path/file]. *)
Lemma parse_file_shape (scheme bucket path file : string) :
  Py.contains "/" scheme = false ->
  Py.contains "/" bucket = false ->
  Py.contains "/" file = false ->
  Py.contains "." file = true ->
  Py.endswith "/" path = false ->
  process_gcs_uri (scheme ++ "://" ++ bucket ++ "/" ++ path ++ "/" ++ file)
  = Ok (scheme ++ ":", bucket, path, file).
Proof.
  intros Hs Hb Hf Hdot Hp. unfold process_gcs_uri.
  rewrite (split_uri scheme bucket (path ++ "/" ++ file) Hs Hb).
  change (path ++ "/" ++ file) with (path ++ String "/" file).
  rewrite split_app, (split_no_sep "/" file Hf).
  rewrite !app_comm_cons. cbv zeta. rewrite item_last_snoc. cbn [rbind].
  rewrite Hdot. cbn [negb]. rewrite pop_rest_snoc.
  cbn [Py.item nth_error rbind Py.slice_from skipn].
  rewrite join_split, Hp. reflexivity.
Qed.

(** The parser on [scheme://bucket/path], the last segment without dot. *)
Lemma parse_directory_shape (scheme bucket path : string) :
  Py.contains "/" scheme = false ->
  Py.contains "/" bucket = false ->
  Py.contains "." (last_segment path) = false ->
  process_gcs_uri (scheme ++ "://" ++ bucket ++ "/" ++ path)
  = Ok (scheme ++ ":", bucket,
        if Py.endswith "/" path then Py.drop_end 1 path else path, "").
Proof.
  intros Hs Hb Hdot. unfold process_gcs_uri.
  rewrite (split_uri scheme bucket path Hs Hb). cbv zeta.
  assert (Hne : Py.split "/" path <> []) by apply split_not_nil.
  rewrite !item_last_cons by (try discriminate; exact Hne).
  rewrite (item_last_last _ "" Hne). fold (last_segment path).
  cbn [rbind]. rewrite Hdot.
  cbn [negb Py.item nth_error rbind Py.slice_from skipn].
  rewrite join_split. reflexivity.
Qed.

(** X1: a directory URI [scheme://bucket/path] whose last segment has no
    dot parses to [(scheme:, bucket, path, "")], one trailing slash of [path]
    removed if there is one; dots in earlier segments do not matter. *)
Theorem process_gcs_uri_directory (scheme bucket path : string) :
  Py.contains "/" scheme = false ->
  Py.contains "/" bucket = false ->
  Py.contains "." (last_segment path) = false ->
  process_gcs_uri (scheme ++ "://" ++ bucket ++ "/" ++ path)
  = Ok (scheme ++ ":", bucket,
        if Py.endswith "/" path then Py.drop_end 1 path else path, "").
Proof.
  intros Hs Hb Hdot.
  now apply parse_directory_shape.
Qed.

Lemma process_gcs_uri_directory_witness :
  process_gcs_uri ("gs" ++ "://" ++ "example_bucket" ++ "/" ++ "runs/v1.2/training-job")
  = Ok ("gs:", "example_bucket", "runs/v1.2/training-job", "")
  /\ process_gcs_uri ("gs" ++ "://" ++ "example_bucket" ++ "/" ++ "training-job/")
     = Ok ("gs:", "example_bucket", "training-job", "").
Proof.
  split.
  - exact (process_gcs_uri_directory "gs" "example_bucket" "runs/v1.2/training-job"
             eq_refl eq_refl eq_refl).
  - exact (process_gcs_uri_directory "gs" "example_bucket" "training-job/"
             eq_refl eq_refl eq_refl).
Defined.

Lemma split_uri_bucket (scheme bucket : string) :
  Py.contains "/" scheme = false ->
  Py.contains "/" bucket = false ->
  Py.split "/" (scheme ++ "://" ++ bucket) = [scheme ++ ":"; ""; bucket].
Proof.
  intros Hs Hb.
  change (scheme ++ "://" ++ bucket)
    with (scheme ++ ":" ++ String "/" ("" ++ String "/" bucket)).
  rewrite <- append_assoc_str, !split_app.
  rewrite (split_no_sep "/" (scheme ++ ":")), (split_no_sep "/" bucket Hb).
  - reflexivity.
  - rewrite contains_app, Hs. reflexivity.
Qed.

(** The parser on [scheme://bucket]. *)
Lemma split_uri_parse (scheme bucket : string) :
  Py.contains "/" scheme = false ->
  Py.contains "/" bucket = false ->
  process_gcs_uri (scheme ++ "://" ++ bucket)
  = if Py.contains "." bucket then Raise IndexError
    else Ok (scheme ++ ":", bucket, "", "").
Proof.
  intros Hs Hb. unfold process_gcs_uri. rewrite (split_uri_bucket scheme bucket Hs Hb).
  cbv zeta. change (Py.item_last [scheme ++ ":"; ""; bucket]) with (Ok (A := string) bucket).
  cbn [rbind]. destruct (Py.contains "." bucket); reflexivity.
Qed.

(** X2: a URI that stops at the bucket, [scheme://bucket] with no slash
    after it, parses to an empty path and file when the bucket name has no
    dot, and raises [IndexError] when it has one: the dotted name is taken
    for a file and popped, which leaves two tokens. *)
Theorem process_gcs_uri_bucket_only (scheme bucket : string) :
  Py.contains "/" scheme = false ->
  Py.contains "/" bucket = false ->
  process_gcs_uri (scheme ++ "://" ++ bucket)
  = if Py.contains "." bucket then Raise IndexError
    else Ok (scheme ++ ":", bucket, "", "").
Proof.
  intros Hs Hb.
  now apply split_uri_parse.
Qed.

Lemma process_gcs_uri_bucket_only_witness :
  process_gcs_uri ("gs" ++ "://" ++ "example_bucket") = Ok ("gs:", "example_bucket", "", "")
  /\ process_gcs_uri ("gs" ++ "://" ++ "models.example.com") = Raise IndexError.
Proof.
  split.
  - exact (process_gcs_uri_bucket_only "gs" "example_bucket" eq_refl eq_refl).
  - exact (process_gcs_uri_bucket_only "gs" "models.example.com" eq_refl eq_refl).
Defined.

(** X3: whenever the parser returns, the scheme, the bucket and the file
    contain no slash, and the file is either empty or contains a dot. *)
Theorem process_gcs_uri_components_wellformed (uri scheme bucket path file : string) :
  process_gcs_uri uri = Ok (scheme, bucket, path, file) ->
  Py.contains "/" scheme = false
  /\ Py.contains "/" bucket = false
  /\ Py.contains "/" file = false
  /\ (file = "" \/ Py.contains "." file = true).
Proof.
  unfold process_gcs_uri.
  pose proof (split_tokens_no_sep "/" uri) as Hall.
  destruct (Py.item_last (Py.split "/" uri)) as [last_tok|e] eqn:Elast; [|discriminate].
  cbn [rbind].
  pose proof (item_last_Forall _ _ _ Hall Elast) as Hlast.
  destruct (Py.contains "." last_tok) eqn:Edot; cbn [negb].
  - pose proof (Forall_removelast _ _ Hall) as Hall'.
    fold (@Py.pop_rest string (Py.split "/" uri)) in Hall'.
    destruct (Py.item (Py.pop_rest (Py.split "/" uri)) 0) as [s|] eqn:E0; [|discriminate].
    destruct (Py.item (Py.pop_rest (Py.split "/" uri)) 2) as [b|] eqn:E2; [|discriminate].
    cbn [rbind]. intros [= <- <- _ <-].
    split; [exact (item_Forall _ _ _ _ Hall' E0)|].
    split; [exact (item_Forall _ _ _ _ Hall' E2)|].
    split; [exact Hlast | now right].
  - destruct (Py.item (Py.split "/" uri) 0) as [s|] eqn:E0; [|discriminate].
    destruct (Py.item (Py.split "/" uri) 2) as [b|] eqn:E2; [|discriminate].
    cbn [rbind]. intros [= <- <- _ <-].
    split; [exact (item_Forall _ _ _ _ Hall E0)|].
    split; [exact (item_Forall _ _ _ _ Hall E2)|].
    split; [reflexivity | now left].
Qed.

Lemma process_gcs_uri_components_wellformed_witness :
  Py.contains "/" "gs:" = false
  /\ Py.contains "/" "example_bucket" = false
  /\ Py.contains "/" "model.pkl" = false
  /\ ("model.pkl" = "" \/ Py.contains "." "model.pkl" = true).
Proof.
  exact (process_gcs_uri_components_wellformed
           "gs://example_bucket/training-job/v1/model.pkl"
           "gs:" "example_bucket" "training-job/v1" "model.pkl" eq_refl).
Defined.

(** X4: the token between the first two slashes is never looked at:
    whatever stands there, the URI parses as if it were [scheme//rest]. *)
Theorem process_gcs_uri_ignores_second_token (scheme junk rest : string) :
  Py.contains "/" scheme = false ->
  Py.contains "/" junk = false ->
  process_gcs_uri (scheme ++ "/" ++ junk ++ "/" ++ rest)
  = process_gcs_uri (scheme ++ "//" ++ rest).
Proof.
  intros Hs Hj. unfold process_gcs_uri.
  change (scheme ++ "/" ++ junk ++ "/" ++ rest)
    with (scheme ++ String "/" (junk ++ String "/" rest)).
  change (scheme ++ "//" ++ rest) with (scheme ++ String "/" ("" ++ String "/" rest)).
  rewrite !split_app, (split_no_sep "/" scheme Hs), (split_no_sep "/" junk Hj).
  change (Py.split "/" "") with [""]. cbn [app]. cbv zeta.
  assert (Hne : Py.split "/" rest <> []) by apply split_not_nil.
  rewrite !item_last_cons by (try discriminate; exact Hne).
  destruct (Py.item_last (Py.split "/" rest)) as [last_tok|e]; [|reflexivity].
  cbn [rbind]. destruct (negb (Py.contains "." last_tok)); [reflexivity|].
  rewrite !pop_rest_cons by (try discriminate; exact Hne). reflexivity.
Qed.

Lemma process_gcs_uri_ignores_second_token_witness :
  process_gcs_uri ("gs:" ++ "/" ++ "anything" ++ "/" ++ "example_bucket/training-job")
  = process_gcs_uri ("gs:" ++ "//" ++ "example_bucket/training-job").
Proof.
  exact (process_gcs_uri_ignores_second_token "gs:" "anything" "example_bucket/training-job"
           eq_refl eq_refl).
Defined.

(** ** Export: where the artifacts go *)

Lemma endswith_contains (c : ascii) (s : string) :
  Py.endswith c s = true -> Py.contains c s = true.
Proof.
  induction s as [|d s IH]; simpl; [discriminate|].
  destruct s as [|d' s'].
  - intros ->. reflexivity.
  - intros H. destruct (Ascii.eqb d c); [reflexivity | now apply IH].
Qed.

Lemma path_join_dir (a b : string) :
  a <> "" ->
  Py.endswith "/" a = false ->
  Py.startswith "/" b = false ->
  Py.path_join a b = a ++ "/" ++ b.
Proof.
  intros Ha He Hb. unfold Py.path_join. rewrite Hb.
  destruct a; [contradiction|]. now rewrite He.
Qed.

Lemma startswith_app (c : ascii) (a b : string) :
  a <> "" -> Py.startswith (String c "") (a ++ b) = Py.startswith (String c "") a.
Proof.
  intros Ha. destruct a as [|d a]; [contradiction|]. simpl.
  destruct (Ascii.eqb c d); reflexivity.
Qed.

Lemma no_slash_no_trailing_slash (s : string) :
  Py.contains "/" s = false -> Py.endswith "/" s = false.
Proof.
  intros H. destruct (Py.endswith "/" s) eqn:E; [|reflexivity].
  apply endswith_contains in E. congruence.
Qed.

(** The URI under which an artifact called [name] lands for the directory
    [gs://bucket/path]. *)
Lemma export_target (bucket path name : string) :
  Py.contains "/" bucket = false ->
  bucket <> "" ->
  path <> "" ->
  Py.endswith "/" path = false ->
  Py.startswith "/" path = false ->
  Py.startswith "/" name = false ->
  Py.path_join path name = path ++ "/" ++ name
  /\ "gs:" ++ "//" ++ Py.path_join bucket (Py.path_join path name)
     = "gs://" ++ bucket ++ "/" ++ path ++ "/" ++ name.
Proof.
  intros Hb Hbne Hpne Hp Hlead Hname.
  rewrite (path_join_dir path name Hpne Hp Hname).
  rewrite (path_join_dir bucket _ Hbne (no_slash_no_trailing_slash bucket Hb))
    by now rewrite (startswith_app "/" path _ Hpne).
  split; reflexivity.
Qed.

(** X5: for the directory [gs://bucket/path] (a non-empty bucket without
    slash, a non-empty path without leading or trailing slash whose last
    segment has no dot) and working storage, the pipeline is pickled and
    uploaded to the
    blob [path/model.pkl] of [bucket] after one client is built, and the
    URI returned is [gs://bucket/path/model.pkl]. *)
Theorem pipeline_export_gcs_directory `{S : Services} `{K : Sklearn}
  (fitted_pipeline : Pipeline) (bucket path : string) (tr : list event) :
  Py.contains "/" bucket = false ->
  bucket <> "" ->
  path <> "" ->
  Py.endswith "/" path = false ->
  Py.startswith "/" path = false ->
  Py.contains "." (last_segment path) = false ->
  storage_client = Ok tt ->
  blob_upload bucket (path ++ "/model.pkl") (pickle_dumps fitted_pipeline) = Ok tt ->
  pipeline_export_gcs fitted_pipeline ("gs://" ++ bucket ++ "/" ++ path) tr
  = (Ok ("gs://" ++ bucket ++ "/" ++ path ++ "/model.pkl"),
     (tr ++ [ StorageClient;
              BlobUpload bucket (path ++ "/model.pkl") (pickle_dumps fitted_pipeline) ])%list).
Proof.
  intros Hb Hbne Hpne Hp Hlead Hdot Hclient Hup.
  destruct (export_target bucket path "model.pkl" Hb Hbne Hpne Hp Hlead eq_refl) as [Hjoin Huri].
  unfold pipeline_export_gcs.
  change ("gs://" ++ bucket ++ "/" ++ path) with ("gs" ++ "://" ++ bucket ++ "/" ++ path).
  rewrite (parse_directory_shape "gs" bucket path eq_refl Hb Hdot), Hp.
  run_io. cbn [String.eqb Ascii.eqb Bool.eqb negb append].
  rewrite Hclient, Hjoin. cbn [append]. rewrite Hup, <- app_assoc.
  cbn [append] in Huri. rewrite Hjoin in Huri. cbn [append] in Huri. rewrite Huri.
  reflexivity.
Qed.

Lemma pipeline_export_gcs_directory_witness :
  @pipeline_export_gcs sample_services sample_sklearn true
     ("gs://" ++ "example_bucket" ++ "/" ++ "training-job") []
  = (Ok ("gs://" ++ "example_bucket" ++ "/" ++ "training-job" ++ "/model.pkl"),
     [ StorageClient;
       BlobUpload "example_bucket" ("training-job" ++ "/model.pkl") "fitted" ]).
Proof.
  apply (@pipeline_export_gcs_directory sample_services sample_sklearn true
           "example_bucket" "training-job" []);
    first [reflexivity | discriminate].
Defined.

(** X6: under the same conditions (the path without leading slash too)
    the report goes to the blob
    [path/report.txt] of the same bucket, and the URI returned is
    [gs://bucket/path/report.txt]. *)
Theorem report_export_gcs_directory `{S : Services} (report bucket path : string)
  (tr : list event) :
  Py.contains "/" bucket = false ->
  bucket <> "" ->
  path <> "" ->
  Py.endswith "/" path = false ->
  Py.startswith "/" path = false ->
  Py.contains "." (last_segment path) = false ->
  storage_client = Ok tt ->
  blob_upload bucket (path ++ "/report.txt") report = Ok tt ->
  report_export_gcs report ("gs://" ++ bucket ++ "/" ++ path) tr
  = (Ok ("gs://" ++ bucket ++ "/" ++ path ++ "/report.txt"),
     (tr ++ [StorageClient; BlobUpload bucket (path ++ "/report.txt") report])%list).
Proof.
  intros Hb Hbne Hpne Hp Hlead Hdot Hclient Hup.
  destruct (export_target bucket path "report.txt" Hb Hbne Hpne Hp Hlead eq_refl) as [Hjoin Huri].
  unfold report_export_gcs.
  change ("gs://" ++ bucket ++ "/" ++ path) with ("gs" ++ "://" ++ bucket ++ "/" ++ path).
  rewrite (parse_directory_shape "gs" bucket path eq_refl Hb Hdot), Hp.
  run_io. cbn [String.eqb Ascii.eqb Bool.eqb negb append].
  rewrite Hclient, Hjoin. cbn [append]. rewrite Hup, <- app_assoc.
  cbn [append] in Huri. rewrite Hjoin in Huri. cbn [append] in Huri. rewrite Huri.
  reflexivity.
Qed.

Lemma report_export_gcs_directory_witness :
  @report_export_gcs sample_services "Training Job Report"
     ("gs://" ++ "example_bucket" ++ "/" ++ "training-job") []
  = (Ok ("gs://" ++ "example_bucket" ++ "/" ++ "training-job" ++ "/report.txt"),
     [ StorageClient;
       BlobUpload "example_bucket" ("training-job" ++ "/report.txt") "Training Job Report" ]).
Proof.
  apply (@report_export_gcs_directory sample_services "Training Job Report"
           "example_bucket" "training-job" []);
    first [reflexivity | discriminate].
Defined.

Lemma last_segment_slash (path : string) : last_segment (path ++ "/") = "".
Proof.
  unfold last_segment. change (path ++ "/") with (path ++ String "/" "").
  rewrite split_app. change (Py.split "/" "") with [""]. apply last_last.
Qed.

(** The parser on [scheme://bucket/path/]. *)
Lemma parse_slash_shape (scheme bucket path : string) :
  Py.contains "/" scheme = false ->
  Py.contains "/" bucket = false ->
  process_gcs_uri (scheme ++ "://" ++ bucket ++ "/" ++ path ++ "/")
  = Ok (scheme ++ ":", bucket, path, "").
Proof.
  intros Hs Hb.
  rewrite (parse_directory_shape scheme bucket (path ++ "/") Hs Hb)
    by now rewrite last_segment_slash.
  rewrite endswith_snoc. unfold Py.drop_end. simpl Nat.iter.
  now rewrite drop_last_snoc.
Qed.

(** X7: a last segment with a dot is taken for a file name and plays no
    part in the export: for the directory [scheme://bucket/path/seg] with a
    dot in [seg], both exports do exactly what they do for
    [scheme://bucket/path/], so the artifacts land in [path], not in
    [path/seg]. *)
Theorem export_drops_dotted_segment `{S : Services} `{K : Sklearn}
  (fitted_pipeline : Pipeline) (report scheme bucket path seg : string) (tr : list event) :
  Py.contains "/" scheme = false ->
  Py.contains "/" bucket = false ->
  Py.contains "/" seg = false ->
  Py.contains "." seg = true ->
  Py.endswith "/" path = false ->
  pipeline_export_gcs fitted_pipeline (scheme ++ "://" ++ bucket ++ "/" ++ path ++ "/" ++ seg) tr
  = pipeline_export_gcs fitted_pipeline (scheme ++ "://" ++ bucket ++ "/" ++ path ++ "/") tr
  /\ report_export_gcs report (scheme ++ "://" ++ bucket ++ "/" ++ path ++ "/" ++ seg) tr
     = report_export_gcs report (scheme ++ "://" ++ bucket ++ "/" ++ path ++ "/") tr.
Proof.
  intros Hs Hb Hseg Hdot Hp. unfold pipeline_export_gcs, report_export_gcs.
  rewrite (parse_file_shape scheme bucket path seg Hs Hb Hseg Hdot Hp).
  rewrite (parse_slash_shape scheme bucket path Hs Hb).
  split; reflexivity.
Qed.

Lemma export_drops_dotted_segment_witness :
  @pipeline_export_gcs sample_services sample_sklearn true
     ("gs" ++ "://" ++ "example_bucket" ++ "/" ++ "models" ++ "/" ++ "v1.2") []
  = (Ok "gs://example_bucket/models/model.pkl",
     [StorageClient; BlobUpload "example_bucket" "models/model.pkl" "fitted"]).
Proof.
  rewrite (proj1 (@export_drops_dotted_segment sample_services sample_sklearn true ""
                    "gs" "example_bucket" "models" "v1.2" []
                    eq_refl eq_refl eq_refl eq_refl eq_refl)).
  reflexivity.
Defined.

(** X8: the URI a successful pipeline export returns for the directory
    [gs://bucket/path], the path without leading or trailing slash, parses
    back to that bucket and path, with [model.pkl] as the file. *)
Theorem pipeline_export_gcs_result_parses `{S : Services} `{K : Sklearn}
  (fitted_pipeline : Pipeline) (bucket path url : string) (tr tr' : list event) :
  Py.contains "/" bucket = false ->
  bucket <> "" ->
  path <> "" ->
  Py.endswith "/" path = false ->
  Py.startswith "/" path = false ->
  Py.contains "." (last_segment path) = false ->
  pipeline_export_gcs fitted_pipeline ("gs://" ++ bucket ++ "/" ++ path) tr = (Ok url, tr') ->
  process_gcs_uri url = Ok ("gs:", bucket, path, "model.pkl").
Proof.
  intros Hb Hbne Hpne Hp Hlead Hdot.
  destruct (export_target bucket path "model.pkl" Hb Hbne Hpne Hp Hlead eq_refl)
    as [Hjoin Huri].
  unfold pipeline_export_gcs.
  change ("gs://" ++ bucket ++ "/" ++ path) with ("gs" ++ "://" ++ bucket ++ "/" ++ path).
  rewrite (parse_directory_shape "gs" bucket path eq_refl Hb Hdot), Hp.
  run_io. cbn [String.eqb Ascii.eqb Bool.eqb negb append].
  destruct storage_client; [|discriminate].
  destruct (blob_upload bucket _ _); [|discriminate].
  intros [= <- _]. cbn [append] in Huri. cbn [append]. rewrite Huri.
  exact (parse_file_shape "gs" bucket path "model.pkl" eq_refl Hb eq_refl eq_refl Hp).
Qed.

Lemma pipeline_export_gcs_result_parses_witness :
  process_gcs_uri "gs://example_bucket/training-job/model.pkl"
  = Ok ("gs:", "example_bucket", "training-job", "model.pkl").
Proof.
  apply (@pipeline_export_gcs_result_parses sample_services sample_sklearn true
           "example_bucket" "training-job" "gs://example_bucket/training-job/model.pkl"
           [] [StorageClient; BlobUpload "example_bucket" "training-job/model.pkl" "fitted"]);
    first [reflexivity | discriminate].
Defined.

(** ** Cleaning: missing columns, repetition, order *)

Section CleaningFurther.

Context `{P : Pandas}.

Lemma getitem_raise (df : DataFrame) (n : string) (e : pyerr) :
  getitem df n = Raise e -> e = KeyError n.
Proof.
  induction df as [|[k col] rest IH]; simpl.
  - now intros [= <-].
  - destruct (String.eqb k n); [discriminate | exact IH].
Qed.

Lemma setitem_same (df : DataFrame) (n : string) (col : column) :
  getitem df n = Ok col -> setitem df n col = df.
Proof.
  induction df as [|[k old] rest IH]; simpl; [discriminate|].
  destruct (String.eqb k n).
  - now intros [= ->].
  - intros H. now rewrite (IH H).
Qed.

Lemma clean_app (cols1 cols2 : list string) : forall df : DataFrame,
  clean_missing_numerics df (cols1 ++ cols2)%list
  = match clean_missing_numerics df cols1 with
    | (df', None) => clean_missing_numerics df' cols2
    | (df', Some e) => (df', Some e)
    end.
Proof.
  induction cols1 as [|c cols1 IH]; intros df; [reflexivity|].
  change ((c :: cols1) ++ cols2)%list with (c :: (cols1 ++ cols2)%list).
  destruct (getitem df c) as [raw|e] eqn:Hc.
  - rewrite !(clean_step df c _ raw Hc). apply IH.
  - rewrite !(clean_step_absent df c _ e Hc). reflexivity.
Qed.

Lemma clean_fixed (cols : list string) (df : DataFrame) :
  (forall n, In n cols -> exists col, getitem df n = Ok col /\ clean_column col = col) ->
  clean_missing_numerics df cols = (df, None).
Proof.
  induction cols as [|c cols IH]; intros Hall; [reflexivity|].
  destruct (Hall c (or_introl eq_refl)) as (raw & Hc & Hfix).
  rewrite (clean_step df c cols raw Hc), Hfix, (setitem_same df c raw Hc).
  apply IH. intros n Hn. apply Hall. now right.
Qed.

Lemma clean_column_no_strings (col : column) : no_strings (clean_column col) = true.
Proof.
  rewrite clean_column_map. unfold no_strings. rewrite forallb_forall.
  intros c Hc. apply in_map_iff in Hc. destruct Hc as [c0 [<- _]].
  unfold impute, series_mean.
  destruct (coerce c0) as [y| |t] eqn:E; try reflexivity.
  - destruct (present (to_numeric col)); [reflexivity|]. now destruct (mean_of _).
  - destruct c0 as [x| |s]; simpl in E; try discriminate.
    destruct (parse_numeric s); discriminate.
Qed.

End CleaningFurther.

(** X9: when the list names a column the table does not have, cleaning
    stops at the first such name with [KeyError] of that name; the columns
    named before it are already cleaned in the caller's table, the names
    after it are not looked at. *)
Theorem clean_missing_numerics_missing_column `{P : Pandas} (T : DataFrame)
  (before after : list string) (n : string) :
  (forall m, In m before -> exists col, getitem T m = Ok col) ->
  (forall col, getitem T n <> Ok col) ->
  clean_missing_numerics T (before ++ n :: after)%list
  = (fst (clean_missing_numerics T before), Some (KeyError n)).
Proof.
  intros Hall Habs. rewrite clean_app.
  destruct (clean_present before T Hall) as [Hnone _].
  destruct (clean_invariant before T) as (_ & Hframe & _).
  destruct (clean_missing_numerics T before) as [T' o]. simpl in *. subst o.
  assert (Hn : ~ In n before).
  { intros Hin. destruct (Hall n Hin) as [col Hc]. now apply (Habs col). }
  destruct (getitem T n) as [col|e] eqn:E; [now elim (Habs col)|].
  apply clean_step_absent. rewrite (Hframe n Hn).
  now rewrite (getitem_raise T n e E) in E.
Qed.

Lemma clean_missing_numerics_missing_column_witness :
  @clean_missing_numerics digits_pandas sample_table (["p2"] ++ "p9" :: ["p0"])%list
  = (fst (@clean_missing_numerics digits_pandas sample_table ["p2"]), Some (KeyError "p9")).
Proof.
  apply (@clean_missing_numerics_missing_column digits_pandas sample_table ["p2"] ["p0"] "p9").
  - intros m [<-|[]]. eexists. reflexivity.
  - intros col. discriminate.
Defined.

(** X10: cleaning is idempotent: on a table that has all the named
    columns, a second cleaning with the same names ends normally and changes
    nothing. *)
Theorem clean_missing_numerics_idempotent `{P : Pandas} (T : DataFrame) (C : list string) :
  (forall n, In n C -> exists col, getitem T n = Ok col) ->
  clean_missing_numerics (fst (clean_missing_numerics T C)) C
  = (fst (clean_missing_numerics T C), None).
Proof.
  intros Hall. destruct (clean_present C T Hall) as [_ Hcell].
  apply clean_fixed. intros n Hn. destruct (Hall n Hn) as [col Hc].
  exists (clean_column col). split; [now apply Hcell | apply clean_column_idempotent].
Qed.

Lemma clean_missing_numerics_idempotent_witness :
  @clean_missing_numerics digits_pandas
     (fst (@clean_missing_numerics digits_pandas sample_table ["p0"; "p2"])) ["p0"; "p2"]
  = (fst (@clean_missing_numerics digits_pandas sample_table ["p0"; "p2"]), None).
Proof.
  apply (@clean_missing_numerics_idempotent digits_pandas sample_table ["p0"; "p2"]).
  intros n [<-|[<-|[]]]; eexists; reflexivity.
Defined.

(** X11: after a cleaning that ends normally no named column holds a
    string any more: every entry is a number or the missing marker, whatever
    the column held and whatever the parser accepts. *)
Theorem clean_missing_numerics_no_strings `{P : Pandas} (T : DataFrame) (C : list string)
  (n : string) (col' : column) :
  (forall m, In m C -> exists col, getitem T m = Ok col) ->
  In n C ->
  getitem (fst (clean_missing_numerics T C)) n = Ok col' ->
  no_strings col' = true.
Proof.
  intros Hall Hn Hget. destruct (clean_present C T Hall) as [_ Hcell].
  destruct (Hall n Hn) as [col Hc].
  rewrite (Hcell n col Hn Hc) in Hget. injection Hget as <-.
  apply clean_column_no_strings.
Qed.

Lemma clean_missing_numerics_no_strings_witness : no_strings [NaN; NaN] = true.
Proof.
  apply (@clean_missing_numerics_no_strings digits_pandas blank_table ["p2"] "p2" [NaN; NaN]).
  - intros m [<-|[]]. eexists. reflexivity.
  - now left.
  - reflexivity.
Defined.

(** X12: the order of the names and their repetition do not matter: two
    lists with the same names, all columns of the table, leave the same
    content under every column name. *)
Theorem clean_missing_numerics_order `{P : Pandas} (T : DataFrame) (C1 C2 : list string)
  (n : string) :
  (forall m, In m C1 <-> In m C2) ->
  (forall m, In m C1 -> exists col, getitem T m = Ok col) ->
  getitem (fst (clean_missing_numerics T C1)) n
  = getitem (fst (clean_missing_numerics T C2)) n.
Proof.
  intros Hsame Hall1.
  assert (Hall2 : forall m, In m C2 -> exists col, getitem T m = Ok col).
  { intros m Hm. apply Hall1. now apply Hsame. }
  destruct (clean_present C1 T Hall1) as [_ Hcell1].
  destruct (clean_present C2 T Hall2) as [_ Hcell2].
  destruct (clean_invariant C1 T) as (_ & Hframe1 & _).
  destruct (clean_invariant C2 T) as (_ & Hframe2 & _).
  destruct (in_dec string_dec n C1) as [Hin|Hnin].
  - destruct (Hall1 n Hin) as [col Hc].
    rewrite (Hcell1 n col Hin Hc). symmetry. apply Hcell2; [now apply Hsame | exact Hc].
  - rewrite (Hframe1 n Hnin). symmetry. apply Hframe2. intros Hin. apply Hnin. now apply Hsame.
Qed.

Lemma clean_missing_numerics_order_witness :
  getitem (fst (@clean_missing_numerics digits_pandas sample_table ["p0"; "p2"])) "p2"
  = getitem (fst (@clean_missing_numerics digits_pandas sample_table ["p2"; "p0"; "p2"])) "p2".
Proof.
  apply (@clean_missing_numerics_order digits_pandas sample_table
           ["p0"; "p2"] ["p2"; "p0"; "p2"] "p2").
  - intros m. simpl. tauto.
  - intros m [<-|[<-|[]]]; eexists; reflexivity.
Defined.

(** ** Feature selection *)

Lemma loc_columns_present (df : DataFrame) (selected : list string) :
  (forall n, In n selected -> exists col, getitem df n = Ok col) ->
  exists X, loc_columns df selected = Ok X
            /\ columns_of X = selected
            /\ (forall n, In n selected -> getitem X n = getitem df n).
Proof.
  induction selected as [|c selected IH]; intros Hall.
  - exists []. repeat split. contradiction.
  - destruct (Hall c (or_introl eq_refl)) as [col Hc].
    destruct IH as (X & HX & Hcols & Hget); [intros n Hn; apply Hall; now right|].
    exists ((c, col) :: X). simpl. rewrite Hc, HX. simpl.
    split; [reflexivity|]. split; [now rewrite Hcols|].
    intros n Hn. destruct (String.eqb c n) eqn:E.
    + apply String.eqb_eq in E. now subst n.
    + destruct Hn as [->|Hn]; [now rewrite String.eqb_refl in E | now apply Hget].
Qed.

Lemma loc_columns_absent (df : DataFrame) (selected : list string) (n : string) :
  In n selected ->
  (forall col, getitem df n <> Ok col) ->
  exists k, loc_columns df selected = Raise (KeyError k).
Proof.
  intros Hin Habs. induction selected as [|c selected IH]; [contradiction|].
  simpl. destruct (getitem df c) as [col|e] eqn:Hc.
  - destruct Hin as [->|Hin]; [now elim (Habs col)|].
    destruct (IH Hin) as [k ->]. exists k. reflexivity.
  - exists c. now rewrite (getitem_raise df c e Hc).
Qed.

Lemma data_selection_cols (df : DataFrame) (selected_columns : list string)
  (label_column : string) (labels : column) :
  getitem df label_column = Ok labels ->
  (forall n, In n selected_columns -> exists col, getitem df n = Ok col) ->
  exists data,
    data_selection df selected_columns label_column = Ok (data, labels)
    /\ columns_of data = selected_columns
    /\ (forall n, In n selected_columns -> getitem data n = getitem df n).
Proof.
  intros Hlabel Hall.
  destruct (loc_columns_present df selected_columns Hall) as (X & HX & Hcols & Hget).
  exists X. unfold data_selection. rewrite Hlabel, HX. auto.
Qed.

(** X13: when the label and every selected name are columns of the table,
    selection returns the label column as it is and a feature table whose
    columns are exactly the selected names, in the order of the request (not
    of the table), each with the content the table has under that name. *)
Theorem data_selection_present (df : DataFrame) (selected_columns : list string)
  (label_column : string) (labels : column) :
  getitem df label_column = Ok labels ->
  (forall n, In n selected_columns -> exists col, getitem df n = Ok col) ->
  exists data,
    data_selection df selected_columns label_column = Ok (data, labels)
    /\ columns_of data = selected_columns
    /\ (forall n, In n selected_columns -> getitem data n = getitem df n).
Proof.
  intros Hlabel Hall.
  now apply data_selection_cols.
Qed.

Lemma data_selection_present_witness :
  exists data,
    data_selection sample_table ["p2"; "p0"] "text" = Ok (data, [Str "A"; Str "B"; Str "A"])
    /\ columns_of data = ["p2"; "p0"]
    /\ (forall n, In n ["p2"; "p0"] -> getitem data n = getitem sample_table n).
Proof.
  apply (data_selection_present sample_table ["p2"; "p0"] "text").
  - reflexivity.
  - intros n [<-|[<-|[]]]; eexists; reflexivity.
Defined.

(** X14: selection raises [KeyError] as soon as the label or one of the
    selected names is no column of the table; a missing label is reported
    first, under its own name, whatever the selected names are. *)
Theorem data_selection_absent (df : DataFrame) (selected_columns : list string)
  (label_column : string) :
  (forall col, getitem df label_column <> Ok col)
  \/ (exists n, In n selected_columns /\ forall col, getitem df n <> Ok col) ->
  (exists k, data_selection df selected_columns label_column = Raise (KeyError k))
  /\ ((forall col, getitem df label_column <> Ok col) ->
      data_selection df selected_columns label_column = Raise (KeyError label_column)).
Proof.
  intros Habs.
  assert (Hlabel : (forall col, getitem df label_column <> Ok col) ->
                   data_selection df selected_columns label_column
                   = Raise (KeyError label_column)).
  { intros Hl. unfold data_selection.
    destruct (getitem df label_column) as [col|e] eqn:E; [now elim (Hl col)|].
    now rewrite (getitem_raise df label_column e E). }
  split; [|exact Hlabel].
  destruct (getitem df label_column) as [labels|e] eqn:E.
  - destruct Habs as [Hl|(n & Hin & Hn)]; [now elim (Hl labels)|].
    destruct (loc_columns_absent df selected_columns n Hin Hn) as [k Hk].
    exists k. unfold data_selection. now rewrite E, Hk.
  - exists label_column. apply Hlabel. intros col. discriminate.
Qed.

Lemma data_selection_absent_witness :
  (exists k, data_selection sample_table ["p0"; "p1"] "label" = Raise (KeyError k))
  /\ ((forall col, getitem sample_table "label" <> Ok col) ->
      data_selection sample_table ["p0"; "p1"] "label" = Raise (KeyError "label")).
Proof.
  apply (data_selection_absent sample_table ["p0"; "p1"] "label").
  left. intros col. discriminate.
Defined.

(** X15: for a table that has the five feature columns [p0] to [p4] and
    the label column [text], the main block's cleaning followed by selection
    succeeds; the labels are the table's [text] column, untouched by the
    cleaning, and the features are [p0] to [p4] in that order, each the
    cleaned form of the table's column, free of strings. *)
Theorem clean_and_select_present `{P : Pandas} (df : DataFrame) (labels : column) :
  getitem df LABEL = Ok labels ->
  (forall n, In n NUMERIC_FEATURES -> exists col, getitem df n = Ok col) ->
  exists X,
    clean_and_select df = Ok (X, labels)
    /\ columns_of X = ["p0"; "p1"; "p2"; "p3"; "p4"]
    /\ (forall n col, In n NUMERIC_FEATURES -> getitem df n = Ok col ->
          getitem X n = Ok (map (impute (series_mean (to_numeric col))) col)
          /\ no_strings (map (impute (series_mean (to_numeric col))) col) = true).
Proof.
  intros Hlabel Hall. unfold clean_and_select.
  destruct (clean_present NUMERIC_FEATURES df Hall) as [Hnone Hcell].
  destruct (clean_invariant NUMERIC_FEATURES df) as (_ & Hframe & _).
  destruct (clean_missing_numerics df NUMERIC_FEATURES) as [df' o]. simpl in *. subst o.
  assert (Hlabel' : getitem df' LABEL = Ok labels).
  { rewrite Hframe; [exact Hlabel|].
    unfold NUMERIC_FEATURES, LABEL. simpl. intuition discriminate. }
  assert (Hall' : forall n, In n ALL_COLUMNS -> exists col, getitem df' n = Ok col).
  { intros n Hn. destruct (Hall n Hn) as [col Hc]. exists (clean_column col). now apply Hcell. }
  destruct (data_selection_cols df' ALL_COLUMNS LABEL labels Hlabel' Hall')
    as (X & HX & Hcols & Hget).
  exists X. split; [exact HX|]. split; [exact Hcols|].
  intros n col Hn Hc. rewrite <- clean_column_map.
  split; [|apply clean_column_no_strings].
  rewrite (Hget n Hn). now apply Hcell.
Qed.

Lemma clean_and_select_present_witness :
  exists X,
    @clean_and_select digits_pandas full_table = Ok (X, [Str "A"; Str "B"])
    /\ columns_of X = ["p0"; "p1"; "p2"; "p3"; "p4"]
    /\ (forall n col, In n NUMERIC_FEATURES -> getitem full_table n = Ok col ->
          getitem X n
          = Ok (map (@impute digits_pandas
                       (@series_mean digits_pandas (@to_numeric digits_pandas col)))
                  col)
          /\ no_strings
               (map (@impute digits_pandas
                       (@series_mean digits_pandas (@to_numeric digits_pandas col)))
                  col)
             = true).
Proof.
  apply (@clean_and_select_present digits_pandas full_table [Str "A"; Str "B"]).
  - reflexivity.
  - intros n [<-|[<-|[<-|[<-|[<-|[]]]]]]; eexists; reflexivity.
Defined.

Example clean_and_select_sample :
  @clean_and_select digits_pandas full_table
  = Ok ([ ("p0", [Num (1 # 1); Num (2 # 1)]);
          ("p1", [Num (3 # 1); Num (5 # 1)]);
          ("p2", [Num (8 # 1); Num (8 # 1)]);
          ("p3", [NaN; NaN]);
          ("p4", [Num (0 # 1); Num (0 # 1)]) ],
        [Str "A"; Str "B"]).
Proof. reflexivity. Qed.

(** ** Loading: warehouse references *)

(** X16: for the reference [bq://project.dataset.table], the three names
    without dot, and clients that can be built, the warehouse client is
    built for [project] (the prefix cut off) and the query sent is the full
    scan of [dataset.table]; the answer of the warehouse is the result. *)
Theorem load_data_from_bq_reference `{S : Services} (project dataset table : string)
  (tr : list event) :
  Py.contains "." project = false ->
  Py.contains "." dataset = false ->
  Py.contains "." table = false ->
  bq_client project = Ok tt ->
  bq_read_client = Ok tt ->
  load_data_from_bq ("bq://" ++ project ++ "." ++ dataset ++ "." ++ table) tr
  = (bq_query project (nl ++ "    SELECT * from " ++ dataset ++ "." ++ table ++ nl ++ "    "),
     (tr ++ [ LogInfo ("reading bq data: " ++ "bq://" ++ project ++ "." ++ dataset ++ "." ++ table);
              BqClient project;
              BqReadClient;
              BqQuery project
                (nl ++ "    SELECT * from " ++ dataset ++ "." ++ table ++ nl ++ "    ") ])%list).
Proof.
  intros Hp Hd Ht Hc Hr. unfold load_data_from_bq.
  change (Py.startswith "bq://" ("bq://" ++ project ++ "." ++ dataset ++ "." ++ table))
    with true. cbn [negb].
  assert (Hsplit : Py.split "." ("bq://" ++ project ++ "." ++ dataset ++ "." ++ table)
                   = ["bq://" ++ project; dataset; table]).
  { change ("bq://" ++ project ++ "." ++ dataset ++ "." ++ table)
      with ("bq://" ++ (project ++ String "." (dataset ++ String "." table))).
    rewrite <- append_assoc_str, !split_app.
    rewrite (split_no_sep "." ("bq://" ++ project)), (split_no_sep "." dataset Hd),
      (split_no_sep "." table Ht); [reflexivity|].
    rewrite contains_app, Hp. reflexivity. }
  rewrite Hsplit. change (Py.drop_start 5 ("bq://" ++ project)) with project.
  run_io. rewrite Hc, Hr, <- !app_assoc. reflexivity.
Qed.

Lemma load_data_from_bq_reference_witness :
  @load_data_from_bq sample_services
     ("bq://" ++ "example_project" ++ "." ++ "example_dataset" ++ "." ++ "example_table") []
  = (Ok sample_table,
     [ LogInfo "reading bq data: bq://example_project.example_dataset.example_table";
       BqClient "example_project";
       BqReadClient;
       BqQuery "example_project"
         (nl ++ "    SELECT * from " ++ "example_dataset" ++ "." ++ "example_table" ++ nl
          ++ "    ") ]).
Proof.
  exact (@load_data_from_bq_reference sample_services
           "example_project" "example_dataset" "example_table" []
           eq_refl eq_refl eq_refl eq_refl eq_refl).
Defined.

(** X17: in [bigquery] mode a training URI without the [bq://] prefix
    stops the run with the input error before any service is called: the
    URI has been printed, nothing else has happened. *)
Theorem load_tables_bigquery_bad_training_uri `{S : Services} (args : arguments)
  (tr : list event) :
  data_format args = "bigquery" ->
  Py.startswith "bq://" (training_data_uri args) = false ->
  load_tables args tr
  = (Raise (Exception not_bq_uri_msg), (tr ++ [Print (training_data_uri args)])%list).
Proof.
  intros Hfmt Hpre. unfold load_tables, load_data_from_bq.
  rewrite Hfmt, Hpre. cbn [String.eqb Ascii.eqb Bool.eqb negb]. run_io. reflexivity.
Qed.

Lemma load_tables_bigquery_bad_training_uri_witness :
  @load_tables sample_services
     {| data_format := "bigquery";
        training_data_uri := "example_project.example_dataset.train";
        validation_data_uri := "bq://example_project.example_dataset.valid";
        test_data_uri := "bq://example_project.example_dataset.test" |} []
  = (Raise (Exception not_bq_uri_msg), [Print "example_project.example_dataset.train"]).
Proof.
  exact (@load_tables_bigquery_bad_training_uri sample_services
           {| data_format := "bigquery";
              training_data_uri := "example_project.example_dataset.train";
              validation_data_uri := "bq://example_project.example_dataset.valid";
              test_data_uri := "bq://example_project.example_dataset.test" |} []
           eq_refl eq_refl).
Defined.

(** ** Report: the example array *)

Section ReportFurther.

Context `{T : PyText}.

Lemma drop_end_app (t x : string) : Py.drop_end (String.length t) (x ++ t) = x.
Proof.
  revert x. induction t as [|c t IH]; intros x.
  - simpl. unfold Py.drop_end. simpl. apply append_empty_r.
  - change (x ++ String c t) with (x ++ String c "" ++ t).
    rewrite <- append_assoc_str. unfold Py.drop_end in *. simpl String.length.
    simpl Nat.iter. rewrite IH. apply drop_last_snoc.
Qed.

Lemma concat_sep_join (sep : string) (l : list string) :
  l <> [] ->
  String.concat "" (map (fun x => x ++ sep) l) = Py.join sep l ++ sep.
Proof.
  induction l as [|x l IH]; [contradiction|]. intros _.
  change (map (fun x => x ++ sep) (x :: l)) with ((x ++ sep) :: map (fun x => x ++ sep) l).
  rewrite concat_cons. destruct l as [|y l].
  - simpl. now rewrite append_empty_r.
  - rewrite IH by discriminate.
    change (Py.join sep (x :: y :: l)) with (x ++ sep ++ Py.join sep (y :: l)).
    now rewrite !append_assoc_str.
Qed.

Lemma fold_example_cell (r : list npvalue) : forall buffer : string,
  fold_left example_cell r buffer
  = buffer ++ String.concat "" (map (fun x => x ++ ", ") (map cell_text r)).
Proof.
  induction r as [|c r IH]; intros buffer.
  - simpl. now rewrite append_empty_r.
  - change (fold_left example_cell (c :: r) buffer)
      with (fold_left example_cell r (example_cell buffer c)).
    rewrite IH.
    change (map (fun x => x ++ ", ") (map cell_text (c :: r)))
      with ((cell_text c ++ ", ") :: map (fun x => x ++ ", ") (map cell_text r)).
    rewrite concat_cons. destruct c as [s|f]; unfold example_cell, cell_text;
      now rewrite !append_assoc_str.
Qed.

Lemma example_row_text (buffer : string) (r : list npvalue) :
  r <> [] -> example_row buffer r = buffer ++ row_text r ++ ", " ++ nl.
Proof.
  intros Hr. unfold example_row, row_text. rewrite fold_example_cell.
  rewrite concat_sep_join by (destruct r; [contradiction | discriminate]).
  rewrite <- (append_assoc_str _ _ ", ").
  rewrite (drop_end_app ", "). now rewrite !append_assoc_str.
Qed.

Lemma fold_example_row (rows : list (list npvalue)) : forall buffer : string,
  Forall (fun r => r <> []) rows ->
  fold_left example_row rows buffer
  = buffer ++ String.concat "" (map (fun x => x ++ ", " ++ nl) (map row_text rows)).
Proof.
  induction rows as [|r rows IH]; intros buffer Hall.
  - simpl. now rewrite append_empty_r.
  - inversion Hall as [|? ? Hr Hrows]; subst.
    change (fold_left example_row (r :: rows) buffer)
      with (fold_left example_row rows (example_row buffer r)).
    rewrite (IH _ Hrows), (example_row_text buffer r Hr).
    change (map (fun x => x ++ ", " ++ nl) (map row_text (r :: rows)))
      with ((row_text r ++ ", " ++ nl)
              :: map (fun x => x ++ ", " ++ nl) (map row_text rows)).
    rewrite concat_cons. now rewrite !append_assoc_str.
Qed.

End ReportFurther.

(** X18: for at least one example row, every row with at least one
    element, the two loops and their slices produce the rows in brackets,
    separated by a comma, a space and a line break, inside one pair of
    brackets; strings are quoted, numbers are not. *)
Theorem buffer_example_data_text `{T : PyText} (example_data : list (list npvalue)) :
  example_data <> [] ->
  Forall (fun r => r <> []) example_data ->
  buffer_example_data example_data
  = "[" ++ Py.join (", " ++ nl) (map row_text example_data) ++ "]".
Proof.
  intros Hne Hall. unfold buffer_example_data.
  rewrite (fold_example_row example_data "[" Hall).
  rewrite concat_sep_join by (destruct example_data; [contradiction | discriminate]).
  rewrite <- (append_assoc_str "[" _ (", " ++ nl)).
  rewrite (drop_end_app (", " ++ nl)). now rewrite append_assoc_str.
Qed.

Lemma buffer_example_data_text_witness :
  @buffer_example_data sample_text
     [ [@NpStr sample_text "a"; @NpFloat sample_text 2%Z]; [@NpFloat sample_text 3%Z] ]
  = "[" ++ Py.join (", " ++ nl)
             (map (@row_text sample_text)
                [ [@NpStr sample_text "a"; @NpFloat sample_text 2%Z];
                  [@NpFloat sample_text 3%Z] ])
    ++ "]".
Proof.
  apply (@buffer_example_data_text sample_text).
  - discriminate.
  - repeat constructor; discriminate.
Defined.

(** Without the conditions the brackets do not balance. *)
Example buffer_example_data_empty_row :
  @buffer_example_data sample_text [ [] ] = "]]".
Proof. reflexivity. Qed.

(** ** Report: what the text carries *)

Lemma substring_of_run (l1 mid l2 : list string) :
  substring_of (String.concat "" mid) (String.concat "" (l1 ++ mid ++ l2)%list).
Proof.
  exists (String.concat "" l1), (String.concat "" l2).
  now rewrite !concat_app.
Qed.

(** X19: the report carries every input under its heading, verbatim: the
    score after [Cross Validation Score: ], the metrics text on the line
    after [Test Data Classification Report:], the column list after
    [Order of columns:], the printed example array after
    [Example for clf.predict()], and the JSON rows as the value of
    [instances]. *)
Theorem prepare_report_inputs `{T : PyText} (cv_score : float64) (model_params : pydict)
  (classification_report : string) (columns : list string)
  (example_data : list (list npvalue)) :
  substring_of ("Cross Validation Score: " ++ float_str cv_score ++ nl)
    (prepare_report cv_score model_params classification_report columns example_data)
  /\ substring_of ("Test Data Classification Report:" ++ nl ++ classification_report ++ nl)
       (prepare_report cv_score model_params classification_report columns example_data)
  /\ substring_of ("Order of columns:" ++ nl ++ str_list columns ++ nl)
       (prepare_report cv_score model_params classification_report columns example_data)
  /\ substring_of ("Example for clf.predict()" ++ nl ++ buffer_example_data example_data ++ nl)
       (prepare_report cv_score model_params classification_report columns example_data)
  /\ substring_of (dquote ++ "instances" ++ dquote ++ ": " ++ json_dumps_rows example_data
                   ++ nl ++ "}")
       (prepare_report cv_score model_params classification_report columns example_data).
Proof.
  unfold prepare_report, report_pieces. repeat split.
  - exact (substring_of_run [_; _; _; _; _] ["Cross Validation Score: "; float_str cv_score; nl] _).
  - exact (substring_of_run [_; _; _; _; _; _; _; _; _; _; _; _; _; _]
             ["Test Data Classification Report:"; nl; classification_report; nl] _).
  - exact (substring_of_run [_; _; _; _; _; _; _; _; _; _; _; _; _; _; _; _; _; _; _; _; _; _]
             ["Order of columns:"; nl; str_list columns; nl] _).
  - exact (substring_of_run [_; _; _; _; _; _; _; _; _; _; _; _; _; _; _; _; _; _; _; _; _; _; _; _; _; _; _]
             ["Example for clf.predict()"; nl; buffer_example_data example_data; nl] _).
  - exact (substring_of_run [_; _; _; _; _; _; _; _; _; _; _; _; _; _; _; _; _; _; _; _; _; _; _; _; _; _; _; _; _; _; _; _; _; _; _; _; _; _]
             [dquote; "instances"; dquote; ": "; json_dumps_rows example_data; nl; "}"] _).
Qed.

(** ** Export: a URI that stops at the bucket *)

(** X20: for the directory [gs://bucket], nothing after the bucket name,
    the export depends on the name: a name with a dot is taken for a file,
    the parser raises [IndexError] and no storage call is made; a name
    without dot gets the pipeline as the blob [model.pkl] at the root of
    the bucket, and [gs://bucket/model.pkl] is returned. *)
Theorem pipeline_export_gcs_bucket_only `{S : Services} `{K : Sklearn}
  (fitted_pipeline : Pipeline) (bucket : string) (tr : list event) :
  Py.contains "/" bucket = false ->
  bucket <> "" ->
  storage_client = Ok tt ->
  blob_upload bucket "model.pkl" (pickle_dumps fitted_pipeline) = Ok tt ->
  pipeline_export_gcs fitted_pipeline ("gs://" ++ bucket) tr
  = if Py.contains "." bucket then (Raise IndexError, tr)
    else (Ok ("gs://" ++ bucket ++ "/model.pkl"),
          (tr ++ [StorageClient; BlobUpload bucket "model.pkl" (pickle_dumps fitted_pipeline)])%list).
Proof.
  intros Hb Hbne Hclient Hup. unfold pipeline_export_gcs.
  change ("gs://" ++ bucket) with ("gs" ++ "://" ++ bucket).
  rewrite (split_uri_parse "gs" bucket eq_refl Hb).
  destruct (Py.contains "." bucket); [reflexivity|].
  run_io. cbn [String.eqb Ascii.eqb Bool.eqb negb append].
  change (Py.path_join "" "model.pkl") with "model.pkl".
  rewrite Hclient, Hup, <- app_assoc.
  rewrite (path_join_dir bucket "model.pkl" Hbne (no_slash_no_trailing_slash bucket Hb) eq_refl).
  reflexivity.
Qed.

Lemma pipeline_export_gcs_bucket_only_witness :
  @pipeline_export_gcs sample_services sample_sklearn true ("gs://" ++ "models.example.com") []
  = (Raise IndexError, [])
  /\ @pipeline_export_gcs sample_services sample_sklearn true ("gs://" ++ "example_bucket") []
     = (Ok ("gs://" ++ "example_bucket" ++ "/model.pkl"),
        [StorageClient; BlobUpload "example_bucket" "model.pkl" "fitted"]).
Proof.
  split.
  - apply (@pipeline_export_gcs_bucket_only sample_services sample_sklearn true
             "models.example.com" []); first [reflexivity | discriminate].
  - apply (@pipeline_export_gcs_bucket_only sample_services sample_sklearn true
             "example_bucket" []); first [reflexivity | discriminate].
Defined.

(** A path that starts with a slash is absolute for [os.path.join]: it
    replaces the bucket in the URI that is returned. *)
Example pipeline_export_gcs_absolute_path :
  @pipeline_export_gcs sample_services sample_sklearn true "gs://example_bucket//abs" []
  = (Ok "gs:///abs/model.pkl",
     [StorageClient; BlobUpload "example_bucket" "/abs/model.pkl" "fitted"]).
Proof. reflexivity. Qed.
